(** * Brooks-Corey curves and the simple H2O-N2 fluid system

    A shallow embedding of
    - [dumux/new_material/fluidmatrixinteractions/2p/brookscorey.hh]
      (class template [BrooksCorey<ParamsT>]), and
    - the fluid system [Simple_H2O_N2_System<TypeTag>],
    together with the properties the specification states about them.

    Both classes are templates over their number type [Scalar].  The
    embedding keeps that shape: the code is written once over an interface
    [ScalarOps] and then read at two number types,
    - [R], exact real arithmetic (what the formulas mean), and
    - [spec_float] at precision 53 and maximal exponent 1024, that is IEEE 754
      binary64 (what a build with [Scalar = double] computes). *)

From Stdlib Require Import ZArith Bool List String Lia.
From Stdlib Require Import DecimalString.
From Stdlib Require Import Reals Lra.
From Stdlib Require Import SpecFloat.
Import ListNotations.

Local Open Scope Z_scope.

(* ================================================================== *)
(** * Outcomes of a call *)
(* ================================================================== *)

(** [DUNE_THROW(Dune::InvalidStateException, msg)] throws an exception that
    carries the formatted message. *)
Inductive exception : Type :=
| InvalidStateException (what : string).

(** A call returns a value, leaves by an exception, or is aborted by a
    failing [assert]. *)
Inductive outcome (A : Type) : Type :=
| Value (a : A)
| Thrown (e : exception)
| AssertionFailed.

Arguments Value {A} a.
Arguments Thrown {A} e.
Arguments AssertionFailed {A}.

Definition obind {A B : Type} (m : outcome A) (k : A -> outcome B) : outcome B :=
  match m with
  | Value a => k a
  | Thrown e => Thrown e
  | AssertionFailed => AssertionFailed
  end.

(** [<assert.h>]: with [NDEBUG] defined the macro expands to nothing. *)
Inductive build : Type :=
| DebugBuild
| ReleaseBuild.

Definition assert_ (b : build) (cond : bool) : outcome unit :=
  match b with
  | ReleaseBuild => Value tt
  | DebugBuild => if cond then Value tt else AssertionFailed
  end.

(** [operator<<] of an [int] into the message stream. *)
Definition show_int (n : Z) : string := NilEmpty.string_of_int (Z.to_int n).

(* ================================================================== *)
(** * The number type [Scalar] *)
(* ================================================================== *)

(** What the two templates use of [Scalar]: conversion of the integral
    literals of the code, the four operations, unary minus, [pow] of
    [<math.h>], and the comparisons [<] and [<=]. *)
Class ScalarOps (Scalar : Type) : Type := {
  fromZ : Z -> Scalar;
  Sadd : Scalar -> Scalar -> Scalar;
  Ssub : Scalar -> Scalar -> Scalar;
  Smul : Scalar -> Scalar -> Scalar;
  Sdiv : Scalar -> Scalar -> Scalar;
  Sopp : Scalar -> Scalar;
  Spow : Scalar -> Scalar -> Scalar;
  Sltb : Scalar -> Scalar -> bool;
  Sleb : Scalar -> Scalar -> bool
}.

Declare Scope scalar_scope.
Delimit Scope scalar_scope with S.
Infix "+" := Sadd : scalar_scope.
Infix "-" := Ssub : scalar_scope.
Infix "*" := Smul : scalar_scope.
Infix "/" := Sdiv : scalar_scope.
Notation "- x" := (Sopp x) : scalar_scope.
Infix "<?" := Sltb : scalar_scope.
Infix "<=?" := Sleb : scalar_scope.

(** [std::max(a, b)] is [(a < b) ? b : a] and [std::min(a, b)] is
    [(b < a) ? b : a] (header [<algorithm>]). *)
Definition std_max {Scalar} `{ScalarOps Scalar} (a b : Scalar) : Scalar :=
  if (a <? b)%S then b else a.

Definition std_min {Scalar} `{ScalarOps Scalar} (a b : Scalar) : Scalar :=
  if (b <? a)%S then b else a.

(* ================================================================== *)
(** * [BrooksCorey<ParamsT>] *)
(* ================================================================== *)

Module BrooksCorey.

(** The parameter object ([brookscoreyparams.hh]): the class reads it through
    the two getters [pe()] and [alpha()] only. *)
Record Params (Scalar : Type) : Type := mkParams {
  pe : Scalar;
  alpha : Scalar
}.

Arguments mkParams {Scalar} pe alpha.
Arguments pe {Scalar} p.
Arguments alpha {Scalar} p.

Section Curves.

Context {Scalar : Type} `{ScalarOps Scalar}.
Variable b : build.

Local Open Scope scalar_scope.

(** The values the functions return once their assertion has let them
    through. *)
Definition pC_raw (params : Params Scalar) (Swe : Scalar) : Scalar :=
  pe params * Spow Swe (- fromZ 1 / alpha params).

Definition Sw_raw (params : Params Scalar) (pC : Scalar) : Scalar :=
  Spow (pC / pe params) (- alpha params).

Definition Sw_clamped (params : Params Scalar) (pC : Scalar) : Scalar :=
  let tmp := Sw_raw params pC in
  std_min (std_max tmp (fromZ 0)) (fromZ 1).

Definition dpC_dSw_raw (params : Params Scalar) (Swe : Scalar) : Scalar :=
  - pe params / alpha params * Spow Swe (- fromZ 1 / alpha params - fromZ 1).

Definition dSw_dpC_raw (params : Params Scalar) (pC : Scalar) : Scalar :=
  - alpha params / pe params * Spow (pC / pe params) (- alpha params - fromZ 1).

Definition krw_raw (params : Params Scalar) (Sw_mob : Scalar) : Scalar :=
  Spow Sw_mob ((fromZ 2 + fromZ 3 * alpha params) / alpha params).

Definition krn_raw (params : Params Scalar) (Sw_mob : Scalar) : Scalar :=
  let exponent := (fromZ 2 + alpha params) / alpha params in
  let tmp := fromZ 1 - Sw_mob in
  tmp * tmp * (fromZ 1 - Spow Sw_mob exponent).

(** The clamp of [Sw] on its own: [std::min(std::max(t, 0.0), 1.0)]. *)
Definition clamp (t : Scalar) : Scalar :=
  std_min (std_max t (fromZ 0)) (fromZ 1).

(** The two conditions the assertions test. *)
Definition saturation_ok (Swe : Scalar) : bool :=
  (fromZ 0 <=? Swe) && (Swe <=? fromZ 1).

Definition pressure_ok (pC : Scalar) : bool :=
  fromZ 0 <=? pC.

(** [static Scalar pC(const Params &params, Scalar Swe)] *)
Definition pC (params : Params Scalar) (Swe : Scalar) : outcome Scalar :=
  obind (assert_ b (saturation_ok Swe)) (fun _ =>
  Value (pC_raw params Swe)).

(** [static Scalar Sw(const Params &params, Scalar pC)] *)
Definition Sw (params : Params Scalar) (pC : Scalar) : outcome Scalar :=
  obind (assert_ b (pressure_ok pC)) (fun _ =>
  Value (Sw_clamped params pC)).

(** [static Scalar dpC_dSw(const Params &params, Scalar Swe)] *)
Definition dpC_dSw (params : Params Scalar) (Swe : Scalar) : outcome Scalar :=
  obind (assert_ b (saturation_ok Swe)) (fun _ =>
  Value (dpC_dSw_raw params Swe)).

(** [static Scalar dSw_dpC(const Params &params, Scalar pC)] *)
Definition dSw_dpC (params : Params Scalar) (pC : Scalar) : outcome Scalar :=
  obind (assert_ b (pressure_ok pC)) (fun _ =>
  Value (dSw_dpC_raw params pC)).

(** [static Scalar krw(const Params &params, Scalar Sw_mob)] *)
Definition krw (params : Params Scalar) (Sw_mob : Scalar) : outcome Scalar :=
  obind (assert_ b (saturation_ok Sw_mob)) (fun _ =>
  Value (krw_raw params Sw_mob)).

(** [static Scalar krn(const Params &params, Scalar Sw_mob)] *)
Definition krn (params : Params Scalar) (Sw_mob : Scalar) : outcome Scalar :=
  obind (assert_ b (saturation_ok Sw_mob)) (fun _ =>
  Value (krn_raw params Sw_mob)).

(** The composition the round trip is about: [Sw(params, pC(params, s))]. *)
Definition roundtrip (params : Params Scalar) (s : Scalar) : outcome Scalar :=
  obind (pC params s) (Sw params).

End Curves.

End BrooksCorey.

(* ================================================================== *)
(** * [Scalar = R]: exact real arithmetic *)
(* ================================================================== *)

Module RealScalar.

Definition ltb (x y : R) : bool := if Rlt_dec x y then true else false.
Definition leb (x y : R) : bool := if Rle_dec x y then true else false.

(** [pow] of [<math.h>] where its value is a real number that the curves
    can reach: [pow(x, 0) = 1], [pow(x, y) = exp(y ln x)] for [0 < x], and
    [pow(0, y) = 0] for [0 < y].  At a pole ([x = 0], [y < 0]) and for a
    negative base the C function yields an infinity, a NaN or a signed
    integer power; [R] has no such values, the instance returns [0] there and
    no theorem below evaluates it there. *)
Definition pow (x y : R) : R :=
  if Req_dec_T y 0 then 1%R
  else if Rlt_dec 0 x then Rpower x y
  else 0%R.

#[global] Instance ops : ScalarOps R := {
  fromZ := IZR;
  Sadd := Rplus;
  Ssub := Rminus;
  Smul := Rmult;
  Sdiv := Rdiv;
  Sopp := Ropp;
  Spow := pow;
  Sltb := ltb;
  Sleb := leb
}.

End RealScalar.

(* ================================================================== *)
(** * [Scalar = double]: IEEE 754 binary64 *)
(* ================================================================== *)

Module DoubleScalar.

Definition prec : Z := 53.
Definition emax : Z := 1024.

Definition double : Type := spec_float.

(** Conversion of an integer, rounded to nearest even. *)
Definition of_Z (n : Z) : double := binary_normalize prec emax n 0 false.

(** [m * 2^e], rounded to nearest even. *)
Definition of_scaled (m e : Z) : double := binary_normalize prec emax m e false.

Definition zero : double := S754_zero false.
Definition one : double := of_Z 1.
Definition pinf : double := S754_infinity false.
Definition ninf : double := S754_infinity true.
Definition nan : double := S754_nan.

Definition isnan (x : double) : bool :=
  match x with
  | S754_nan => true
  | _ => false
  end.

(** [y] is a finite number whose value is an integer. *)
Definition is_integer (y : double) : bool :=
  match y with
  | S754_zero _ => true
  | S754_finite _ m (Zneg k) => Zpos m mod 2 ^ Zpos k =? 0
  | S754_finite _ _ _ => true
  | _ => false
  end.

(** [y] is a finite number whose value is an odd integer. *)
Definition is_odd_integer (y : double) : bool :=
  match y with
  | S754_finite _ m Z0 => Z.odd (Zpos m)
  | S754_finite _ m (Zneg k) =>
      (Zpos m mod 2 ^ Zpos k =? 0) && Z.odd (Zpos m / 2 ^ Zpos k)
  | _ => false
  end.

(** [pow] of [<math.h>] on an IEC 60559 implementation (ISO C, annex F,
    F.10.4.4).  The standard fixes the result for zeros, infinities, NaNs,
    the bases [+1] and [-1] and negative bases; for the remaining arguments
    (a finite non-zero base, positive or with an integral exponent, and a
    finite non-zero exponent) the result is the C library's, [libm_pow]. *)
Definition pow (libm_pow : double -> double -> double) (x y : double) : double :=
  let neg_y := SFltb y zero in
  let odd_y := is_odd_integer y in
  if SFeqb y zero then one
  else if SFeqb x one then one
  else if isnan x || isnan y then nan
  else
    match x, y with
    | S754_zero sx, S754_infinity sy => if sy then pinf else zero
    | S754_zero sx, _ =>
        if neg_y then (if odd_y then S754_infinity sx else pinf)
        else (if odd_y then S754_zero sx else zero)
    | _, S754_infinity sy =>
        if SFeqb x (SFopp one) then one
        else if SFltb (SFabs x) one then (if sy then pinf else zero)
        else (if sy then zero else pinf)
    | S754_infinity false, _ => if neg_y then zero else pinf
    | S754_infinity true, _ =>
        if neg_y then (if odd_y then S754_zero true else zero)
        else (if odd_y then ninf else pinf)
    | S754_finite true _ _, _ => if is_integer y then libm_pow x y else nan
    | _, _ => libm_pow x y
    end.

Definition ops (libm_pow : double -> double -> double) : ScalarOps double := {|
  fromZ := of_Z;
  Sadd := SFadd prec emax;
  Ssub := SFsub prec emax;
  Smul := SFmul prec emax;
  Sdiv := SFdiv prec emax;
  Sopp := SFopp;
  Spow := pow libm_pow;
  Sltb := SFltb;
  Sleb := SFleb
|}.

End DoubleScalar.


(* ================================================================== *)
(** * [Simple_H2O_N2_System<TypeTag>] *)
(* ================================================================== *)

Module Simple_H2O_N2_System.

Definition numComponents : Z := 2.
Definition numPhases : Z := 2.

Definition lPhaseIdx : Z := 0.
Definition gPhaseIdx : Z := 1.

Definition wPhaseIdx : Z := lPhaseIdx.
Definition nPhaseIdx : Z := gPhaseIdx.

Definition H2OIdx : Z := 0.
Definition N2Idx : Z := 1.

(** What the fluid system takes from the headers it includes: the component
    classes [SimpleH2O] and [N2], the constant [IdealGas::R], and the function
    [enthalpy] that [phaseInternalEnergy] calls (the class declares no member
    of that name, so the call resolves outside it). *)
Record Externals (Scalar FluidState : Type) : Type := mkExternals {
  H2O_name : string;
  N2_name : string;
  H2O_molarMass : Scalar;
  N2_molarMass : Scalar;
  H2O_liquidDensity : Scalar -> Scalar -> Scalar;
  H2O_liquidViscosity : Scalar -> Scalar -> Scalar;
  N2_gasViscosity : Scalar -> Scalar -> Scalar;
  IdealGas_R : Scalar;
  enthalpy : Z -> Scalar -> Scalar -> FluidState -> Scalar
}.

Arguments mkExternals {Scalar FluidState}.
Arguments H2O_name {Scalar FluidState} e.
Arguments N2_name {Scalar FluidState} e.
Arguments H2O_molarMass {Scalar FluidState} e.
Arguments N2_molarMass {Scalar FluidState} e.
Arguments H2O_liquidDensity {Scalar FluidState} e.
Arguments H2O_liquidViscosity {Scalar FluidState} e.
Arguments N2_gasViscosity {Scalar FluidState} e.
Arguments IdealGas_R {Scalar FluidState} e.
Arguments enthalpy {Scalar FluidState} e.

(** The fluid-state object the functions are handed by reference.  Its class
    is not part of the fluid system; the functions use its getters
    [moleFrac(phaseIdx, compIdx)], [massFrac(phaseIdx, compIdx)] and
    [partialPressure(compIdx)] and the setter
    [setPartialPressure(compIdx, value)], which stores one entry. *)
Record FluidState (Scalar : Type) : Type := mkFluidState {
  moleFrac : Z -> Z -> Scalar;
  massFrac : Z -> Z -> Scalar;
  partialPressure : Z -> Scalar
}.

Arguments mkFluidState {Scalar}.
Arguments moleFrac {Scalar} f.
Arguments massFrac {Scalar} f.
Arguments partialPressure {Scalar} f.

Definition store_partialPressure {Scalar} (compIdx : Z) (value : Scalar)
  (fs : FluidState Scalar) : FluidState Scalar :=
  mkFluidState (moleFrac fs) (massFrac fs)
    (fun i => if i =? compIdx then value else partialPressure fs i).

(** ** Calls that are handed the fluid state

    A member function with a [FluidState] parameter runs against the one
    object its caller owns: it gets the object's current content and leaves
    an outcome and the content after the call. *)
Definition call (Scalar A : Type) : Type :=
  FluidState Scalar -> outcome A * FluidState Scalar.

Section Monad.

Context {Scalar : Type}.

Definition ret {A} (a : A) : call Scalar A := fun fs => (Value a, fs).

Definition bind {A B} (m : call Scalar A) (k : A -> call Scalar B) : call Scalar B :=
  fun fs =>
    match m fs with
    | (Value a, fs') => k a fs'
    | (Thrown e, fs') => (Thrown e, fs')
    | (AssertionFailed, fs') => (AssertionFailed, fs')
    end.

Definition throw {A} (e : exception) : call Scalar A := fun fs => (Thrown e, fs).

Definition get_moleFrac (phaseIdx compIdx : Z) : call Scalar Scalar :=
  fun fs => (Value (moleFrac fs phaseIdx compIdx), fs).

Definition get_massFrac (phaseIdx compIdx : Z) : call Scalar Scalar :=
  fun fs => (Value (massFrac fs phaseIdx compIdx), fs).

Definition get_partialPressure (compIdx : Z) : call Scalar Scalar :=
  fun fs => (Value (partialPressure fs compIdx), fs).

Definition setPartialPressure (compIdx : Z) (value : Scalar) : call Scalar unit :=
  fun fs => (Value tt, store_partialPressure compIdx value fs).

(** A function that only reads the object it is handed. *)
Definition reads {A} (f : FluidState Scalar -> A) : call Scalar A :=
  fun fs => (Value (f fs), fs).

(** A call that leaves the object as it found it, whatever its outcome. *)
Definition keeps_state {A} (m : call Scalar A) : Prop :=
  forall fs : FluidState Scalar, snd (m fs) = fs.

End Monad.

Declare Scope call_scope.
Delimit Scope call_scope with call.
Notation "x <- m ;; k" := (bind m (fun x => k))
  (at level 61, m at next level, right associativity) : call_scope.
Notation "m ;; k" := (bind m (fun _ => k))
  (at level 61, right associativity) : call_scope.

(** [DUNE_THROW(Dune::InvalidStateException, text << index)] *)
Definition invalid_index (text : string) (index : Z) : exception :=
  InvalidStateException (text ++ show_int index).

Section System.

Context {Scalar : Type} `{ScalarOps Scalar}.
Variable ext : Externals Scalar (FluidState Scalar).

Local Open Scope scalar_scope.
Local Open Scope call_scope.

(** Modelled from the spec: [IdealGas::density] of [idealgas.hh], which is
    not among the sources.  The specification gives the ideal-gas phase
    density as [P*M/(R*T)]. *)
Definition IdealGas_density (avgMolarMass temperature pressure : Scalar) : Scalar :=
  pressure * avgMolarMass / (IdealGas_R ext * temperature).

(** [static const char *componentName(int compIdx)] *)
Definition componentName (compIdx : Z) : outcome string :=
  if (compIdx =? H2OIdx)%Z then Value (H2O_name ext)
  else if (compIdx =? N2Idx)%Z then Value (N2_name ext)
  else Thrown (invalid_index "Invalid component index " compIdx).

(** [static Scalar molarMass(int compIdx)] *)
Definition molarMass (compIdx : Z) : outcome Scalar :=
  if (compIdx =? H2OIdx)%Z then Value (H2O_molarMass ext)
  else if (compIdx =? N2Idx)%Z then Value (N2_molarMass ext)
  else Thrown (invalid_index "Invalid component index " compIdx).

(** [static void computePartialPressures(Scalar temperature, Scalar pg,
    FluidState &fluidState)] *)
Definition computePartialPressures (temperature pg : Scalar) : call Scalar unit :=
  xH2O <- get_moleFrac gPhaseIdx H2OIdx ;;
  setPartialPressure H2OIdx (pg * xH2O) ;;
  xN2 <- get_moleFrac gPhaseIdx N2Idx ;;
  setPartialPressure N2Idx (pg * xN2).

(** [static Scalar phaseDensity(int phaseIdx, Scalar temperature,
    Scalar pressure, const FluidState &fluidState)] *)
Definition phaseDensity (phaseIdx : Z) (temperature pressure : Scalar) : call Scalar Scalar :=
  if (phaseIdx =? lPhaseIdx)%Z then
    ret (H2O_liquidDensity ext temperature pressure)
  else if (phaseIdx =? gPhaseIdx)%Z then
    xH2O <- get_moleFrac gPhaseIdx H2OIdx ;;
    xN2 <- get_moleFrac gPhaseIdx N2Idx ;;
    let meanMolarMass := xH2O * H2O_molarMass ext + xN2 * N2_molarMass ext in
    ret (IdealGas_density meanMolarMass temperature pressure)
  else throw (invalid_index "Invalid phase index " phaseIdx).

(** [static Scalar phaseViscosity(int phaseIdx, Scalar temperature,
    Scalar pressure, const FluidState &fluidState)] *)
Definition phaseViscosity (phaseIdx : Z) (temperature pressure : Scalar) : call Scalar Scalar :=
  if (phaseIdx =? lPhaseIdx)%Z then
    ret (H2O_liquidViscosity ext temperature pressure)
  else
    ret (N2_gasViscosity ext temperature pressure).

(** [static Scalar phaseInternalEnergy(int phaseIdx, Scalar temperature,
    Scalar pressure, const FluidState &fluidState)] *)
Definition phaseInternalEnergy (phaseIdx : Z) (temperature pressure : Scalar) : call Scalar Scalar :=
  h <- reads (enthalpy ext phaseIdx temperature pressure) ;;
  if (phaseIdx =? lPhaseIdx)%Z then
    rho <- phaseDensity phaseIdx temperature pressure ;;
    ret (h - pressure * rho)
  else
    ret (h - IdealGas_R ext * temperature).

End System.

(** ** The dispatchers over component and phase pairs *)

(** The further functions of the component classes and of
    [BinaryCoeff::H2O_N2] that these dispatchers call. *)
Record ComponentExternals (Scalar : Type) : Type := mkComponentExternals {
  H2O_vaporPressure : Scalar -> Scalar;
  H2O_N2_henry : Scalar -> Scalar;
  N2_liquidDensity : Scalar -> Scalar -> Scalar;
  H2O_gasDensity : Scalar -> Scalar -> Scalar;
  N2_gasDensity : Scalar -> Scalar -> Scalar;
  H2O_liquidPressure : Scalar -> Scalar -> Scalar;
  N2_liquidPressure : Scalar -> Scalar -> Scalar;
  H2O_gasPressure : Scalar -> Scalar -> Scalar;
  N2_gasPressure : Scalar -> Scalar -> Scalar;
  H2O_N2_liquidDiffCoeff : Scalar -> Scalar -> Scalar;
  H2O_N2_gasDiffCoeff : Scalar -> Scalar -> Scalar
}.

Arguments mkComponentExternals {Scalar}.
Arguments H2O_vaporPressure {Scalar} c.
Arguments H2O_N2_henry {Scalar} c.
Arguments N2_liquidDensity {Scalar} c.
Arguments H2O_gasDensity {Scalar} c.
Arguments N2_gasDensity {Scalar} c.
Arguments H2O_liquidPressure {Scalar} c.
Arguments N2_liquidPressure {Scalar} c.
Arguments H2O_gasPressure {Scalar} c.
Arguments N2_gasPressure {Scalar} c.
Arguments H2O_N2_liquidDiffCoeff {Scalar} c.
Arguments H2O_N2_gasDiffCoeff {Scalar} c.

(** The line feed that ends two of the messages. *)
Definition newline : string := String (Ascii.ascii_of_nat 10) EmptyString.

Definition trace_substances_message : string :=
  "Binary diffusion coefficients of trace substances in liquid phase is undefined!"
  ++ newline.

Definition undefined_pair_message (compIIdx compJIdx phaseIdx : Z) : string :=
  "Binary diffusion coefficient of components " ++ show_int compIIdx
  ++ " and " ++ show_int compJIdx
  ++ " in phase " ++ show_int phaseIdx
  ++ " is undefined!" ++ newline.

Section Dispatchers.

Context {Scalar : Type} `{ScalarOps Scalar}.
Variable ext : Externals Scalar (FluidState Scalar).
Variable cext : ComponentExternals Scalar.

Local Open Scope call_scope.

(** [static Scalar degasPressure(int compIdx, Scalar temperature,
    Scalar pressure)] *)
Definition degasPressure (compIdx : Z) (temperature pressure : Scalar) : outcome Scalar :=
  if (compIdx =? H2OIdx)%Z then Value (H2O_vaporPressure cext temperature)
  else if (compIdx =? N2Idx)%Z then Value (H2O_N2_henry cext temperature)
  else Thrown (invalid_index "Invalid component index " compIdx).

(** [static Scalar componentDensity(int phaseIdx, int compIdx,
    Scalar temperature, Scalar pressure)] *)
Definition componentDensity (phaseIdx compIdx : Z) (temperature pressure : Scalar)
  : outcome Scalar :=
  if (phaseIdx =? lPhaseIdx)%Z then
    if (compIdx =? H2OIdx)%Z then Value (H2O_liquidDensity ext temperature pressure)
    else if (compIdx =? N2Idx)%Z then Value (N2_liquidDensity cext temperature pressure)
    else Thrown (invalid_index "Invalid component index " compIdx)
  else if (phaseIdx =? gPhaseIdx)%Z then
    if (compIdx =? H2OIdx)%Z then Value (H2O_gasDensity cext temperature pressure)
    else if (compIdx =? N2Idx)%Z then Value (N2_gasDensity cext temperature pressure)
    else Thrown (invalid_index "Invalid component index " compIdx)
  else Thrown (invalid_index "Invalid phase index " phaseIdx).

(** [static Scalar componentPressure(int phaseIdx, int compIdx,
    Scalar temperature, Scalar density)] *)
Definition componentPressure (phaseIdx compIdx : Z) (temperature density : Scalar)
  : outcome Scalar :=
  if (phaseIdx =? lPhaseIdx)%Z then
    if (compIdx =? H2OIdx)%Z then Value (H2O_liquidPressure cext temperature density)
    else if (compIdx =? N2Idx)%Z then Value (N2_liquidPressure cext temperature density)
    else Thrown (invalid_index "Invalid component index " compIdx)
  else if (phaseIdx =? gPhaseIdx)%Z then
    if (compIdx =? H2OIdx)%Z then Value (H2O_gasPressure cext temperature density)
    else if (compIdx =? N2Idx)%Z then Value (N2_gasPressure cext temperature density)
    else Thrown (invalid_index "Invalid component index " compIdx)
  else Thrown (invalid_index "Invalid phase index " phaseIdx).

(** [static Scalar diffCoeff(int phaseIdx, int compIIdx, int compJIdx,
    Scalar temperature, Scalar pressure, const FluidState &fluidState)]

    The body is a [switch] over the phase with nested switches over the two
    component indices after they are put in order.  In the liquid case the
    [case H2OIdx] block has no [break]: when [compJIdx] is not [N2Idx]
    control falls through into [default] and throws, as it does for every
    other [compIIdx].  In the gas case the inner switches have no [default]:
    control leaves the outer [switch] and reaches the last [DUNE_THROW], as
    it does for every other phase index. *)
Definition diffCoeff (phaseIdx compIIdx compJIdx : Z) (temperature pressure : Scalar)
  : call Scalar Scalar :=
  let swapped := (compIIdx >? compJIdx)%Z in
  let i := if swapped then compJIdx else compIIdx in
  let j := if swapped then compIIdx else compJIdx in
  if (phaseIdx =? lPhaseIdx)%Z then
    if (i =? H2OIdx)%Z then
      if (j =? N2Idx)%Z then ret (H2O_N2_liquidDiffCoeff cext temperature pressure)
      else throw (InvalidStateException trace_substances_message)
    else throw (InvalidStateException trace_substances_message)
  else if (phaseIdx =? gPhaseIdx)%Z then
    if (i =? H2OIdx)%Z then
      if (j =? N2Idx)%Z then ret (H2O_N2_gasDiffCoeff cext temperature pressure)
      else throw (InvalidStateException (undefined_pair_message i j phaseIdx))
    else throw (InvalidStateException (undefined_pair_message i j phaseIdx))
  else throw (InvalidStateException (undefined_pair_message i j phaseIdx)).

End Dispatchers.

(** ** The phase enthalpy *)

(** The enthalpy correlations of the component classes. *)
Record EnthalpyExternals (Scalar : Type) : Type := mkEnthalpyExternals {
  H2O_liquidEnthalpy : Scalar -> Scalar -> Scalar;
  H2O_gasEnthalpy : Scalar -> Scalar -> Scalar;
  N2_gasEnthalpy : Scalar -> Scalar -> Scalar
}.

Arguments mkEnthalpyExternals {Scalar}.
Arguments H2O_liquidEnthalpy {Scalar} e.
Arguments H2O_gasEnthalpy {Scalar} e.
Arguments N2_gasEnthalpy {Scalar} e.

Section Enthalpy.

Context {Scalar : Type} `{ScalarOps Scalar}.
Variable hext : EnthalpyExternals Scalar.

Local Open Scope scalar_scope.
Local Open Scope call_scope.

(** [static Scalar phaseEnthalpy(int phaseIdx, Scalar temperature,
    Scalar pressure, const FluidState &fluidState)]

    The liquid branch opens with [Scalar temperature = temperature;] and
    [Scalar pressure = pressure;]: each new local hides the parameter of
    the same name from its own initialiser on, so it is initialised from
    itself, and [H2O::liquidEnthalpy] is called on these two values, not on
    the arguments.  What they hold is not determined by the call; the model
    takes them as the pair [indeterminate].  The other branch, taken for
    every phase index but [lPhaseIdx], adds the two gas enthalpies to
    [Scalar result = 0], each weighted by its mass fraction. *)
Definition phaseEnthalpy (indeterminate : Scalar * Scalar)
  (phaseIdx : Z) (temperature pressure : Scalar) : call Scalar Scalar :=
  if (phaseIdx =? lPhaseIdx)%Z then
    let temperature' := fst indeterminate in
    let pressure' := snd indeterminate in
    ret (H2O_liquidEnthalpy hext temperature' pressure')
  else
    pWater <- get_partialPressure H2OIdx ;;
    let result := fromZ 0 in
    XH2O <- get_massFrac gPhaseIdx H2OIdx ;;
    let result := result + H2O_gasEnthalpy hext temperature pWater * XH2O in
    pN2 <- get_partialPressure N2Idx ;;
    XN2 <- get_massFrac gPhaseIdx N2Idx ;;
    let result := result + N2_gasEnthalpy hext temperature pN2 * XN2 in
    ret result.

End Enthalpy.

(** Calling twice in a row with the same arguments gives the same outcome
    twice. *)
Definition repeatable {Scalar A : Type} (m : call Scalar A) : Prop :=
  forall fs : FluidState Scalar, fst (m (snd (m fs))) = fst (m fs).

End Simple_H2O_N2_System.

(* ================================================================== *)
(** * The [pow] of the dense automatic-differentiation toolbox *)
(* ================================================================== *)

Module DenseAd.

(** Modelled from the spec: the [Evaluation] type of the dense AD code, which
    is not among the sources (the changelog mentions it).  Section 3 of the
    specification: a value and one partial derivative per independent
    variable. *)
Record Evaluation : Type := mkEvaluation {
  value : DoubleScalar.double;
  derivatives : list DoubleScalar.double
}.

(** Modelled from the spec: [constant] and [decay] (section 4.3), and
    [isnan], which inspects the value field only (section 4.1). *)
Definition constant (v : DoubleScalar.double) (N : nat) : Evaluation :=
  mkEvaluation v (repeat DoubleScalar.zero N).

Definition decay (x : Evaluation) : DoubleScalar.double := value x.

Definition isnan (x : Evaluation) : bool := DoubleScalar.isnan (value x).

Section Pow.

Variable libm_pow : DoubleScalar.double -> DoubleScalar.double -> DoubleScalar.double.

(** The derivatives returned for a base of zero: the specification asks for
    a special case there and leaves its derivatives open. *)
Variable derivatives_at_zero :
  list DoubleScalar.double -> DoubleScalar.double -> list DoubleScalar.double.

(** Modelled from the spec: [pow(x, c)] for an [Evaluation] base and a plain
    exponent, missing from the sources.  Section 4.2: the value is the
    scalar [pow] of the value, each derivative is [c * x^(c-1)] times the
    operand's; section 4.1: a base of exactly zero is a case of its own. *)
Definition pow (x : Evaluation) (c : DoubleScalar.double) : Evaluation :=
  let scalar_pow := DoubleScalar.pow libm_pow in
  let v := scalar_pow (value x) c in
  if SFeqb (value x) DoubleScalar.zero then
    mkEvaluation v (derivatives_at_zero (derivatives x) c)
  else
    let c_minus_1 := SFsub DoubleScalar.prec DoubleScalar.emax c DoubleScalar.one in
    let factor := SFmul DoubleScalar.prec DoubleScalar.emax c (scalar_pow (value x) c_minus_1) in
    mkEvaluation v
      (map (SFmul DoubleScalar.prec DoubleScalar.emax factor) (derivatives x)).

End Pow.

End DenseAd.

(* ================================================================== *)
(** * Inputs of the worked examples *)
(* ================================================================== *)

Module Examples.

Import DoubleScalar.

(** [0.5], [2^-1074] (the least positive double), [1000], [2], [-1]. *)
Definition d_half : double := of_scaled 1 (-1).
Definition d_least : double := of_scaled 1 (-1074).
Definition d_1000 : double := of_Z 1000.
Definition d_2 : double := of_Z 2.
Definition d_minus_1 : double := of_Z (-1).

(** [2^-20], the tolerance the round trip is measured against. *)
Definition d_tolerance : double := of_scaled 1 (-20).

(** [|a - b| <= tolerance] in double arithmetic. *)
Definition within_tolerance (a b : double) : bool :=
  SFleb (SFabs (SFsub prec emax a b)) d_tolerance.

(** [a] lies in the closed interval [[0,1]]. *)
Definition in_unit_interval (a : double) : bool :=
  SFleb zero a && SFleb a one.

(** Stands for the C library in an example that never reaches it. *)
Definition unused_libm_pow (x y : double) : double := nan.

(** A gas phase of 80 % water vapour and 20 % nitrogen (mole fractions),
    molar masses of 0.018 and 0.028 kg/mol, so that the mean molar mass is
    0.02 kg/mol; no partial pressure stored yet. *)
Definition r_fluidState : Simple_H2O_N2_System.FluidState R :=
  Simple_H2O_N2_System.mkFluidState
    (fun _ compIdx => if compIdx =? Simple_H2O_N2_System.H2OIdx then 0.8%R else 0.2%R)
    (fun _ _ => 0.5%R)
    (fun _ => 0%R).

Definition r_externals :
  Simple_H2O_N2_System.Externals R (Simple_H2O_N2_System.FluidState R) :=
  Simple_H2O_N2_System.mkExternals
    "H2O" "N2" 0.018%R 0.028%R
    (fun _ _ => 1000%R) (fun _ _ => 0.001%R) (fun _ _ => 0.0000175%R)
    8.314472%R
    (fun _ _ _ _ => 0%R).

(** Stand-ins for the correlations the pair dispatchers call. *)
Definition r_component_externals : Simple_H2O_N2_System.ComponentExternals R :=
  Simple_H2O_N2_System.mkComponentExternals
    (fun _ => 3500%R) (fun _ => 9000000000%R)
    (fun _ _ => 800%R) (fun _ _ => 0.7%R) (fun _ _ => 1.1%R)
    (fun _ _ => 100000%R) (fun _ _ => 100000%R) (fun _ _ => 100000%R) (fun _ _ => 100000%R)
    (fun _ _ => 0.000000002%R) (fun _ _ => 0.00002%R).

(** Stand-ins for the enthalpy correlations. *)
Definition r_enthalpy_externals : Simple_H2O_N2_System.EnthalpyExternals R :=
  Simple_H2O_N2_System.mkEnthalpyExternals
    (fun temperature _ => (4180 * temperature)%R)
    (fun _ _ => 2500000%R) (fun _ _ => 300000%R).

(** [2^57] and [-2^-57], an index so large that [0.5^(-1/alpha)] is nearer
    to 1 than to any other double. *)
Definition d_2_to_57 : double := of_scaled 1 57.
Definition d_minus_2_to_minus_57 : double := of_scaled (-1) (-57).

End Examples.

(* ================================================================== *)
(** * Properties of the Brooks-Corey curves *)
(* ================================================================== *)

(** ** Assertions and builds *)

Lemma assert_release (cond : bool) : assert_ ReleaseBuild cond = Value tt.
Proof. reflexivity. Qed.

Lemma assert_holds (b : build) : assert_ b true = Value tt.
Proof. destruct b; reflexivity. Qed.

Lemma assert_debug_fails : assert_ DebugBuild false = AssertionFailed.
Proof. reflexivity. Qed.

Lemma assert_never_throws (b : build) (cond : bool) (e : exception) :
  assert_ b cond <> Thrown e.
Proof. destruct b, cond; discriminate. Qed.

(** A function of the shape "assert, then return the formula". *)
Lemma asserted_value_cases {A : Type} (b : build) (cond : bool) (v : A) :
  obind (assert_ b cond) (fun _ => Value v) =
    match b with
    | ReleaseBuild => Value v
    | DebugBuild => if cond then Value v else AssertionFailed
    end.
Proof. destruct b, cond; reflexivity. Qed.

Ltac run_assert :=
  unfold BrooksCorey.pC, BrooksCorey.Sw, BrooksCorey.dpC_dSw,
    BrooksCorey.dSw_dpC, BrooksCorey.krw, BrooksCorey.krn;
  rewrite ?asserted_value_cases.

Section DomainChecks.

Context {Scalar : Type} `{ScalarOps Scalar}.

Import BrooksCorey.

(** What the assertions do, in every arithmetic, for every build, parameter
    set and argument [x]. *)
Lemma assertions_decide
  (b : build) (params : Params Scalar) (x : Scalar) :
  (saturation_ok x = true ->
     pC b params x = Value (pC_raw params x) /\
     dpC_dSw b params x = Value (dpC_dSw_raw params x) /\
     krw b params x = Value (krw_raw params x) /\
     krn b params x = Value (krn_raw params x)) /\
  (pressure_ok x = true ->
     Sw b params x = Value (Sw_clamped params x) /\
     dSw_dpC b params x = Value (dSw_dpC_raw params x)) /\
  (forall e : exception,
     pC b params x <> Thrown e /\ Sw b params x <> Thrown e /\
     dpC_dSw b params x <> Thrown e /\ dSw_dpC b params x <> Thrown e /\
     krw b params x <> Thrown e /\ krn b params x <> Thrown e) /\
  (pC ReleaseBuild params x = Value (pC_raw params x) /\
   Sw ReleaseBuild params x = Value (Sw_clamped params x) /\
   dpC_dSw ReleaseBuild params x = Value (dpC_dSw_raw params x) /\
   dSw_dpC ReleaseBuild params x = Value (dSw_dpC_raw params x) /\
   krw ReleaseBuild params x = Value (krw_raw params x) /\
   krn ReleaseBuild params x = Value (krn_raw params x)) /\
  (saturation_ok x = false ->
     pC DebugBuild params x = AssertionFailed /\
     dpC_dSw DebugBuild params x = AssertionFailed /\
     krw DebugBuild params x = AssertionFailed /\
     krn DebugBuild params x = AssertionFailed) /\
  (pressure_ok x = false ->
     Sw DebugBuild params x = AssertionFailed /\
     dSw_dpC DebugBuild params x = AssertionFailed).
Proof.
  repeat split; run_assert;
    try (intros; match goal with E : _ = _ |- _ => rewrite E end);
    try (destruct b; reflexivity);
    try reflexivity.
  all: destruct b; try discriminate;
    try (destruct (saturation_ok x); discriminate);
    destruct (pressure_ok x); discriminate.
Qed.

End DomainChecks.

(** ** Exact arithmetic *)

Section RealCurves.

Import BrooksCorey.
Local Open Scope R_scope.

Lemma real_leb_true (x y : R) : x <= y -> RealScalar.leb x y = true.
Proof. intros Hxy. unfold RealScalar.leb. destruct (Rle_dec x y); [reflexivity | contradiction]. Qed.

Lemma real_leb_false (x y : R) : y < x -> RealScalar.leb x y = false.
Proof. intros Hyx. unfold RealScalar.leb. destruct (Rle_dec x y); [lra | reflexivity]. Qed.

Lemma real_ltb_false (x y : R) : y <= x -> RealScalar.ltb x y = false.
Proof. intros Hyx. unfold RealScalar.ltb. destruct (Rlt_dec x y); [lra | reflexivity]. Qed.

Lemma real_ltb_true (x y : R) : x < y -> RealScalar.ltb x y = true.
Proof. intros Hxy. unfold RealScalar.ltb. destruct (Rlt_dec x y); [reflexivity | contradiction]. Qed.

(** On a positive base and a non-zero exponent [pow] is [Rpower]. *)
Lemma real_pow_positive (x y : R) :
  0 < x -> y <> 0 -> RealScalar.pow x y = Rpower x y.
Proof.
  intros Hx Hy. unfold RealScalar.pow.
  destruct (Req_dec_T y 0) as [E | _]; [contradiction|].
  destruct (Rlt_dec 0 x) as [_ | N]; [reflexivity | contradiction].
Qed.

Lemma Rpower_positive (x y : R) : 0 < Rpower x y.
Proof. unfold Rpower. apply exp_pos. Qed.

(** The clamp of [Sw] leaves a number of [[0,1]] as it is. *)
Lemma real_clamp_inside (t : R) :
  0 <= t <= 1 -> std_min (std_max t (fromZ 0)) (fromZ 1) = t.
Proof.
  intros [H0 H1]. unfold std_max, std_min. cbn.
  rewrite (real_ltb_false t 0 H0). rewrite (real_ltb_false 1 t H1). reflexivity.
Qed.

Lemma real_saturation_ok (s : R) : 0 <= s <= 1 -> saturation_ok s = true.
Proof.
  intros [H0 H1]. unfold saturation_ok. cbn.
  rewrite (real_leb_true 0 s H0), (real_leb_true s 1 H1). reflexivity.
Qed.

Lemma real_pressure_ok (p : R) : 0 <= p -> pressure_ok p = true.
Proof. intros Hp. unfold pressure_ok. cbn. apply real_leb_true, Hp. Qed.

(** The capillary pressure of a positive saturation. *)
Lemma real_pC_raw (params : Params R) (s : R) :
  0 < alpha params -> 0 < s ->
  pC_raw params s = pe params * Rpower s (- (1 / alpha params)).
Proof.
  intros Ha Hs. unfold pC_raw. cbn.
  rewrite real_pow_positive; [ | exact Hs | ].
  - f_equal. f_equal. field. lra.
  - intros E. assert (Hinv : 0 < / alpha params) by (apply Rinv_0_lt_compat; exact Ha).
    unfold Rdiv in E. lra.
Qed.

(** The saturation that belongs to the pressure [pe * x], [x] positive. *)
Lemma real_Sw_raw (params : Params R) (x : R) :
  0 < pe params -> 0 < alpha params -> 0 < x ->
  Sw_raw params (pe params * x) = Rpower x (- alpha params).
Proof.
  intros Hp Ha Hx. unfold Sw_raw. cbn.
  replace (pe params * x / pe params) with x by (field; lra).
  apply real_pow_positive; [exact Hx | lra].
Qed.

(** In exact real arithmetic the two curves are inverse to
    each other: for every build, every parameter set with [pe > 0] and
    [alpha > 0] and every effective saturation [s] with [0 < s <= 1],
    [Sw(params, pC(params, s))] returns [s] itself. *)
Lemma roundtrip_exact (b : build) (params : Params R) (s : R) :
  0 < pe params -> 0 < alpha params -> 0 < s -> s <= 1 ->
  roundtrip b params s = Value s.
Proof.
  intros Hp Ha Hs0 Hs1. unfold roundtrip. run_assert.
  rewrite real_saturation_ok by lra.
  assert (Hx : 0 < Rpower s (- (1 / alpha params))) by apply Rpower_positive.
  assert (Hpc : pC_raw params s = pe params * Rpower s (- (1 / alpha params)))
    by (apply real_pC_raw; assumption).
  assert (Hraw : Sw_raw params (pC_raw params s) = s).
  { rewrite Hpc, real_Sw_raw by assumption.
    rewrite Rpower_mult.
    replace (- (1 / alpha params) * - alpha params) with 1 by (field; lra).
    apply Rpower_1, Hs0. }
  assert (Hok : pressure_ok (pC_raw params s) = true).
  { apply real_pressure_ok. rewrite Hpc. apply Rlt_le, Rmult_lt_0_compat; assumption. }
  assert (Hclamp : Sw_clamped params (pC_raw params s) = s).
  { unfold Sw_clamped. cbv zeta. rewrite Hraw. apply real_clamp_inside. lra. }
  destruct b; cbn [obind]; run_assert; rewrite ?Hok, Hclamp; reflexivity.
Qed.

End RealCurves.

(** ** The worked example: [pe = 1000], [alpha = 2], [Swe = 0.5] *)

Section WorkedExample.

Import BrooksCorey.
Local Open Scope R_scope.

(** [0.5^(-0.5)] is the positive square root of two. *)
Lemma half_to_minus_half_squared :
  Rpower (1 / 2) (- (1 / 2)) * Rpower (1 / 2) (- (1 / 2)) = 2.
Proof.
  rewrite <- Rpower_plus.
  replace (- (1 / 2) + - (1 / 2)) with (Ropp 1) by lra.
  rewrite Rpower_Ropp, Rpower_1 by lra. lra.
Qed.

Lemma half_to_minus_half_bounds :
  1.41421 < Rpower (1 / 2) (- (1 / 2)) < 1.41422.
Proof.
  pose proof half_to_minus_half_squared as Hsq.
  pose proof (Rpower_positive (1 / 2) (- (1 / 2))) as Hpos.
  set (x := Rpower (1 / 2) (- (1 / 2))) in *.
  split; nra.
Qed.

(** [0.5^(-1.5) = 2 * 0.5^(-0.5)]. *)
Lemma half_to_minus_three_halves :
  Rpower (1 / 2) (- (3 / 2)) = 2 * Rpower (1 / 2) (- (1 / 2)).
Proof.
  replace (- (3 / 2)) with (Ropp 1 + - (1 / 2)) by lra.
  rewrite Rpower_plus, Rpower_Ropp, Rpower_1 by lra.
  f_equal. lra.
Qed.

Lemma example_pC_real (b : build) :
  pC b (mkParams 1000 2) (1 / 2) = Value (1000 * Rpower (1 / 2) (- (1 / 2))).
Proof.
  run_assert. rewrite real_saturation_ok by lra.
  rewrite real_pC_raw by (cbn; lra). cbn [pe alpha].
  destruct b; reflexivity.
Qed.

Lemma example_dpC_dSw_real (b : build) :
  dpC_dSw b (mkParams 1000 2) (1 / 2) =
    Value (- 1000 / 2 * Rpower (1 / 2) (- (3 / 2))).
Proof.
  run_assert. rewrite real_saturation_ok by lra.
  assert (E : dpC_dSw_raw (mkParams 1000 2) (1 / 2) =
              - 1000 / 2 * Rpower (1 / 2) (- (3 / 2))).
  { unfold dpC_dSw_raw. cbn.
    rewrite real_pow_positive by lra.
    f_equal. f_equal. lra. }
  rewrite E. destruct b; reflexivity.
Qed.

(** The same two calls in double arithmetic: the exponents [-0.5] and
    [-1.5] and the factor [-500] are computed exactly, and the power is the
    C library's. *)
Lemma example_exponents (libm_pow : spec_float -> spec_float -> spec_float) :
  DoubleScalar.pow libm_pow Examples.d_half
    (SFdiv 53 1024 (SFopp (DoubleScalar.of_Z 1)) Examples.d_2)
  = libm_pow Examples.d_half (DoubleScalar.of_scaled (-1) (-1)) /\
  DoubleScalar.pow libm_pow Examples.d_half
    (SFsub 53 1024 (SFdiv 53 1024 (SFopp (DoubleScalar.of_Z 1)) Examples.d_2)
       (DoubleScalar.of_Z 1))
  = libm_pow Examples.d_half (DoubleScalar.of_scaled (-3) (-1)) /\
  SFdiv 53 1024 (SFopp Examples.d_1000) Examples.d_2 = DoubleScalar.of_Z (-500).
Proof. repeat split; vm_compute; reflexivity. Qed.

Lemma example_pC_double (libm_pow : spec_float -> spec_float -> spec_float) (b : build) :
  @pC _ (DoubleScalar.ops libm_pow) b (mkParams Examples.d_1000 Examples.d_2) Examples.d_half =
    Value (SFmul 53 1024 Examples.d_1000
             (libm_pow Examples.d_half (DoubleScalar.of_scaled (-1) (-1)))).
Proof.
  destruct (example_exponents libm_pow) as [E1 _].
  run_assert.
  assert (Hok : @saturation_ok _ (DoubleScalar.ops libm_pow) Examples.d_half = true)
    by (vm_compute; reflexivity).
  rewrite Hok.
  unfold pC_raw. cbn [pe alpha DoubleScalar.ops Smul Spow Sdiv Sopp fromZ].
  change DoubleScalar.prec with 53%Z. change DoubleScalar.emax with 1024%Z.
  rewrite E1. destruct b; reflexivity.
Qed.

Lemma example_dpC_dSw_double (libm_pow : spec_float -> spec_float -> spec_float) (b : build) :
  @dpC_dSw _ (DoubleScalar.ops libm_pow) b (mkParams Examples.d_1000 Examples.d_2) Examples.d_half =
    Value (SFmul 53 1024 (DoubleScalar.of_Z (-500))
             (libm_pow Examples.d_half (DoubleScalar.of_scaled (-3) (-1)))).
Proof.
  destruct (example_exponents libm_pow) as [_ [E2 E3]].
  run_assert.
  assert (Hok : @saturation_ok _ (DoubleScalar.ops libm_pow) Examples.d_half = true)
    by (vm_compute; reflexivity).
  rewrite Hok.
  unfold dpC_dSw_raw. cbn [pe alpha DoubleScalar.ops Smul Spow Sdiv Sopp Ssub fromZ].
  change DoubleScalar.prec with 53%Z. change DoubleScalar.emax with 1024%Z.
  rewrite E2, E3. destruct b; reflexivity.
Qed.

(** C4.  With [pe = 1000] and [alpha = 2], [pC(params, 0.5)] is
    [1000 * 0.5^(-0.5)], a number between 1414.21 and 1414.22, and
    [dpC_dSw(params, 0.5)] is [-1000/2 * 0.5^(-1.5)], a number between
    -1414.22 and -1414.21; in double arithmetic the two calls return
    [1000 * pow(0.5, -0.5)] and [-500 * pow(0.5, -1.5)]. *)
Theorem brooks_corey_worked_example
  (libm_pow : spec_float -> spec_float -> spec_float) (b : build) :
  pC b (mkParams 1000 2) (1 / 2) = Value (1000 * Rpower (1 / 2) (- (1 / 2))) /\
  1414.21 < 1000 * Rpower (1 / 2) (- (1 / 2)) < 1414.22 /\
  dpC_dSw b (mkParams 1000 2) (1 / 2) = Value (- 1000 / 2 * Rpower (1 / 2) (- (3 / 2))) /\
  - 1414.22 < - 1000 / 2 * Rpower (1 / 2) (- (3 / 2)) < - 1414.21 /\
  @pC _ (DoubleScalar.ops libm_pow) b (mkParams Examples.d_1000 Examples.d_2) Examples.d_half =
    Value (SFmul 53 1024 Examples.d_1000
             (libm_pow Examples.d_half (DoubleScalar.of_scaled (-1) (-1)))) /\
  @dpC_dSw _ (DoubleScalar.ops libm_pow) b (mkParams Examples.d_1000 Examples.d_2) Examples.d_half =
    Value (SFmul 53 1024 (DoubleScalar.of_Z (-500))
             (libm_pow Examples.d_half (DoubleScalar.of_scaled (-3) (-1)))).
Proof.
  pose proof half_to_minus_half_bounds as Hb.
  pose proof half_to_minus_three_halves as H32.
  repeat split.
  - apply example_pC_real.
  - lra.
  - lra.
  - apply example_dpC_dSw_real.
  - rewrite H32. lra.
  - rewrite H32. lra.
  - apply example_pC_double.
  - apply example_dpC_dSw_double.
Qed.

End WorkedExample.

(** ** Double arithmetic *)

Section DoubleOrder.

(** Comparison of two doubles answers unless one of them is a NaN, and
    swapping the operands reverses the answer. *)
Lemma SFcompare_swap (x y : spec_float) :
  SFcompare y x = option_map CompOpp (SFcompare x y).
Proof.
  destruct x as [sx | sx | | sx mx ex], y as [sy | sy | | sy my ey]; cbn;
    try reflexivity;
    try (destruct sx; reflexivity); try (destruct sy; reflexivity);
    try (destruct sx, sy; reflexivity).
  destruct sx, sy; cbn; try reflexivity.
  - rewrite (Z.compare_antisym ey ex).
    destruct (ey ?= ex); cbn; try reflexivity.
    do 2 f_equal. symmetry. exact (Pos.compare_cont_antisym mx my Eq).
  - rewrite (Z.compare_antisym ey ex).
    destruct (ey ?= ex); cbn; try reflexivity.
    f_equal. symmetry. exact (Pos.compare_cont_antisym mx my Eq).
Qed.

Lemma SFcompare_defined (x y : spec_float) :
  DoubleScalar.isnan x = false -> DoubleScalar.isnan y = false ->
  exists c, SFcompare x y = Some c.
Proof.
  intros Hx Hy.
  destruct x as [sx | sx | | sx mx ex], y as [sy | sy | | sy my ey];
    try discriminate; cbn; eexists; reflexivity.
Qed.

(** [!(a < b)] gives [b <= a] when neither is a NaN. *)
Lemma not_ltb_leb (a b : spec_float) :
  DoubleScalar.isnan a = false -> DoubleScalar.isnan b = false ->
  SFltb a b = false -> SFleb b a = true.
Proof.
  intros Ha Hb Hlt.
  destruct (SFcompare_defined a b Ha Hb) as [c Hc].
  unfold SFltb in Hlt. unfold SFleb.
  rewrite SFcompare_swap, Hc. rewrite Hc in Hlt.
  destruct c; cbn; try reflexivity; discriminate.
Qed.

(** No comparison with a NaN holds. *)
Lemma ltb_nan_l (b : spec_float) : SFltb S754_nan b = false.
Proof. reflexivity. Qed.

Lemma ltb_nan_r (a : spec_float) : SFltb a S754_nan = false.
Proof. destruct a; reflexivity. Qed.

End DoubleOrder.

Section DoubleCurves.

Import BrooksCorey.
Import DoubleScalar.

Variable libm_pow : double -> double -> double.

Local Abbreviation dops := (DoubleScalar.ops libm_pow).

Local Abbreviation clamp := (@clamp _ dops).

Lemma clamp_unfold (t : double) :
  clamp t =
    let m := if SFltb t zero then zero else t in
    if SFltb one m then one else m.
Proof. reflexivity. Qed.

Lemma Sw_clamped_is_clamp (params : Params double) (pC : double) :
  @Sw_clamped _ dops params pC = clamp (@Sw_raw _ dops params pC).
Proof. reflexivity. Qed.

(** The clamp puts every number into [[0,1]] ... *)
Lemma clamp_in_unit_interval (t : double) :
  isnan t = false -> Examples.in_unit_interval (clamp t) = true.
Proof.
  intros Ht. rewrite clamp_unfold. cbv zeta.
  unfold Examples.in_unit_interval.
  destruct (SFltb t zero) eqn:Hneg.
  - reflexivity.
  - assert (H0 : SFleb zero t = true) by (apply not_ltb_leb; [exact Ht | reflexivity | exact Hneg]).
    destruct (SFltb one t) eqn:Hbig.
    + reflexivity.
    + rewrite H0. cbn [andb].
      apply not_ltb_leb; [reflexivity | exact Ht | exact Hbig].
Qed.

(** ... and hands a NaN back. *)
Lemma clamp_nan (t : double) : isnan t = true -> clamp t = nan.
Proof. destruct t; try discriminate. reflexivity. Qed.

End DoubleCurves.

Section DoubleClaims.

Import BrooksCorey.
Import DoubleScalar.

(** C2 (NaN set apart).  In double arithmetic, for every capillary pressure
    [pC >= 0] and every parameter set, [Sw] returns the raw value
    [(pC/pe)^(-alpha)] passed through [std::min(std::max(., 0.0), 1.0)];
    the result lies in [[0,1]] whenever the raw value is not a NaN, and it
    is a NaN when the raw value is one. *)
Theorem Sw_clamps_unless_nan
  (libm_pow : double -> double -> double) (b : build)
  (params : Params double) (pC : double) :
  SFleb zero pC = true ->
  @Sw _ (ops libm_pow) b params pC
    = Value (@clamp _ (ops libm_pow) (@Sw_raw _ (ops libm_pow) params pC)) /\
  (isnan (@Sw_raw _ (ops libm_pow) params pC) = false ->
     Examples.in_unit_interval
       (@clamp _ (ops libm_pow) (@Sw_raw _ (ops libm_pow) params pC)) = true) /\
  (isnan (@Sw_raw _ (ops libm_pow) params pC) = true ->
     @clamp _ (ops libm_pow) (@Sw_raw _ (ops libm_pow) params pC) = nan).
Proof.
  intros Hpc. split; [ | split].
  - run_assert.
    assert (Hok : @pressure_ok _ (ops libm_pow) pC = true) by exact Hpc.
    rewrite Hok. destruct b; reflexivity.
  - apply clamp_in_unit_interval.
  - apply clamp_nan.
Qed.

(** At [pC = 0], [pe = 1000], [alpha = 2] the raw value is [pow(0, -2)],
    plus infinity, and [Sw] returns 1. *)
Lemma Sw_clamps_unless_nan_witness :
  SFleb zero zero = true /\
  @Sw _ (ops Examples.unused_libm_pow) DebugBuild (mkParams Examples.d_1000 Examples.d_2) zero
    = Value one /\
  Examples.in_unit_interval one = true.
Proof.
  pose proof (Sw_clamps_unless_nan Examples.unused_libm_pow DebugBuild
                (mkParams Examples.d_1000 Examples.d_2) zero eq_refl) as [Hv [Hin _]].
  split; [reflexivity | split].
  - rewrite Hv. vm_compute. reflexivity.
  - apply (Hin eq_refl).
Defined.

(** C2 fails as stated: [pC = 0] is not negative, and with [pe = 0] the
    quotient [0/0] is a NaN, which [pow] and the clamp hand on; the result
    of [Sw] is a NaN and lies in no interval. *)
Lemma Sw_nan_outside_unit_interval :
  (forall (libm_pow : double -> double -> double) (b : build),
     @pressure_ok _ (ops libm_pow) zero = true /\
     @Sw _ (ops libm_pow) b (mkParams zero Examples.d_2) zero = Value nan) /\
  Examples.in_unit_interval nan = false.
Proof.
  split; [ | reflexivity].
  intros libm_pow b. split; [reflexivity | ].
  destruct b; vm_compute; reflexivity.
Qed.

(** C1 fails as stated in double arithmetic.  With [pe = 1000] and
    [alpha = 2^-1074], both positive and finite, and [s = 0.5]:
    [-1.0/alpha] overflows to minus infinity, [pow(0.5, -inf)] is plus
    infinity, so [pC] returns plus infinity; [Sw] divides it by [pe],
    raises infinity to the negative power [-alpha], which is zero, and
    returns 0, half a unit away from [s]. *)
Lemma roundtrip_overflows_in_double :
  (valid_binary prec emax Examples.d_1000 = true /\
   valid_binary prec emax Examples.d_least = true /\
   valid_binary prec emax Examples.d_half = true) /\
  (SFltb zero Examples.d_1000 = true /\ SFltb zero Examples.d_least = true /\
   SFltb zero Examples.d_half = true /\ SFleb Examples.d_half one = true) /\
  (forall (libm_pow : double -> double -> double) (b : build),
     @pC _ (ops libm_pow) b (mkParams Examples.d_1000 Examples.d_least) Examples.d_half
       = Value pinf /\
     @roundtrip _ (ops libm_pow) b (mkParams Examples.d_1000 Examples.d_least) Examples.d_half
       = Value zero) /\
  Examples.within_tolerance zero Examples.d_half = false.
Proof.
  split; [repeat split; vm_compute; reflexivity | ].
  split; [repeat split; vm_compute; reflexivity | ].
  split; [ | vm_compute; reflexivity].
  intros libm_pow b. destruct b; split; vm_compute; reflexivity.
Qed.

(** The table of annex F, read off the model at one argument pair per row. *)
Lemma pow_special_values (libm_pow : double -> double -> double) :
  let pw := pow libm_pow in
  let three := of_Z 3 in
  let third := SFdiv prec emax one three in
  pw nan zero = one /\ pw one nan = one /\ pw nan one = nan /\
  pw (SFopp one) pinf = one /\ pw (SFopp one) ninf = one /\
  pw Examples.d_half ninf = pinf /\ pw Examples.d_2 ninf = zero /\
  pw Examples.d_half pinf = zero /\ pw Examples.d_2 pinf = pinf /\
  pw (S754_zero true) (SFopp three) = ninf /\ pw (S754_zero true) three = S754_zero true /\
  pw zero ninf = pinf /\ pw zero pinf = zero /\
  pw pinf Examples.d_half = pinf /\ pw pinf (SFopp Examples.d_half) = zero /\
  pw ninf three = ninf /\ pw ninf Examples.d_2 = pinf /\
  pw ninf (SFopp three) = S754_zero true /\ pw ninf (SFopp Examples.d_2) = zero /\
  pw (SFopp Examples.d_2) third = nan /\
  pw (SFopp Examples.d_2) three = libm_pow (SFopp Examples.d_2) three /\
  pw Examples.d_2 third = libm_pow Examples.d_2 third.
Proof. cbv zeta. repeat split; vm_compute; reflexivity. Qed.

(** The powers of zero that the standard fixes. *)
Lemma pow_of_zero (libm_pow : double -> double -> double) (s : bool) :
  pow libm_pow (S754_zero s) Examples.d_minus_1 = S754_infinity s /\
  pow libm_pow (S754_zero s) Examples.d_half = zero /\
  pow libm_pow (S754_zero s) Examples.d_2 = zero.
Proof. destruct s; repeat split; vm_compute; reflexivity. Qed.

(** The value of [pow] at a base of exactly zero (of either sign) and an
    exponent among -1, 0.5 and 2 is not a NaN, for the scalar function and
    for the value field of the one on [Evaluation]s.  Nothing is said of the
    derivatives: the specification does not fix them at a base of zero. *)
Lemma pow_of_zero_value_is_not_nan
  (libm_pow : double -> double -> double)
  (derivatives_at_zero : list double -> double -> list double)
  (s : bool) (derivs : list double) :
  let base := DenseAd.mkEvaluation (S754_zero s) derivs in
  let ad_pow := DenseAd.pow libm_pow derivatives_at_zero in
  (isnan (pow libm_pow (S754_zero s) Examples.d_minus_1) = false /\
   isnan (pow libm_pow (S754_zero s) Examples.d_half) = false /\
   isnan (pow libm_pow (S754_zero s) Examples.d_2) = false) /\
  (DenseAd.isnan (ad_pow base Examples.d_minus_1) = false /\
   DenseAd.isnan (ad_pow base Examples.d_half) = false /\
   DenseAd.isnan (ad_pow base Examples.d_2) = false).
Proof.
  cbv zeta.
  destruct (pow_of_zero libm_pow s) as [E1 [E2 E3]].
  split.
  - rewrite E1, E2, E3. repeat split; reflexivity.
  - unfold DenseAd.isnan, DenseAd.pow. cbv zeta.
    cbn [DenseAd.value DenseAd.derivatives].
    assert (Hz : SFeqb (S754_zero s) zero = true) by (destruct s; reflexivity).
    rewrite Hz. cbn [DenseAd.value].
    rewrite E1, E2, E3. repeat split; reflexivity.
Qed.

(** In a release build an argument outside the domain is computed with:
    [pC] at [Swe = -1] with [alpha = 2] raises a negative base to the power
    [-0.5] and returns a NaN, where the debug build stops at the assertion. *)
Lemma release_build_computes_nan (libm_pow : double -> double -> double) :
  @saturation_ok _ (ops libm_pow) Examples.d_minus_1 = false /\
  @pC _ (ops libm_pow) ReleaseBuild (mkParams Examples.d_1000 Examples.d_2) Examples.d_minus_1
    = Value nan /\
  @pC _ (ops libm_pow) DebugBuild (mkParams Examples.d_1000 Examples.d_2) Examples.d_minus_1
    = AssertionFailed.
Proof. repeat split; vm_compute; reflexivity. Qed.

(** C5.  Out-of-domain arguments of the Brooks-Corey functions are caught by
    assertions and by nothing else.  In every arithmetic, for every build,
    parameter set and argument [x]:
    - when the precondition holds ([0 <= x <= 1] for [pC], [dpC_dSw], [krw],
      [krn]; [x >= 0] for [Sw], [dSw_dpC]) the assertion passes and the
      function returns its formula;
    - no function ever leaves by an exception;
    - a release build returns the formula whatever the argument is;
    - a debug build stops at the assertion when the precondition fails;
    and the value a release build computes outside the domain need not be
    finite: in double arithmetic [pC] at [Swe = -1], [alpha = 2] is a NaN. *)
Theorem domain_checked_by_assertions_only :
  (forall (Scalar : Type) (sops : ScalarOps Scalar)
          (b : build) (params : Params Scalar) (x : Scalar),
     (saturation_ok x = true ->
        pC b params x = Value (pC_raw params x) /\
        dpC_dSw b params x = Value (dpC_dSw_raw params x) /\
        krw b params x = Value (krw_raw params x) /\
        krn b params x = Value (krn_raw params x)) /\
     (pressure_ok x = true ->
        Sw b params x = Value (Sw_clamped params x) /\
        dSw_dpC b params x = Value (dSw_dpC_raw params x)) /\
     (forall e : exception,
        pC b params x <> Thrown e /\ Sw b params x <> Thrown e /\
        dpC_dSw b params x <> Thrown e /\ dSw_dpC b params x <> Thrown e /\
        krw b params x <> Thrown e /\ krn b params x <> Thrown e) /\
     (pC ReleaseBuild params x = Value (pC_raw params x) /\
      Sw ReleaseBuild params x = Value (Sw_clamped params x) /\
      dpC_dSw ReleaseBuild params x = Value (dpC_dSw_raw params x) /\
      dSw_dpC ReleaseBuild params x = Value (dSw_dpC_raw params x) /\
      krw ReleaseBuild params x = Value (krw_raw params x) /\
      krn ReleaseBuild params x = Value (krn_raw params x)) /\
     (saturation_ok x = false ->
        pC DebugBuild params x = AssertionFailed /\
        dpC_dSw DebugBuild params x = AssertionFailed /\
        krw DebugBuild params x = AssertionFailed /\
        krn DebugBuild params x = AssertionFailed) /\
     (pressure_ok x = false ->
        Sw DebugBuild params x = AssertionFailed /\
        dSw_dpC DebugBuild params x = AssertionFailed)) /\
  (forall libm_pow : double -> double -> double,
     @pC _ (ops libm_pow) ReleaseBuild (mkParams Examples.d_1000 Examples.d_2)
       Examples.d_minus_1 = Value nan).
Proof.
  split.
  - intros Scalar sops b params x. apply assertions_decide.
  - intros libm_pow. apply release_build_computes_nan.
Qed.

(** In exact arithmetic: [0.5] passes the saturation check, [2] does not,
    and [-1] is no admissible pressure. *)
Lemma domain_checked_by_assertions_only_witness :
  (@saturation_ok R _ (1 / 2)%R = true /\
   pC DebugBuild (mkParams 1000%R 2%R) (1 / 2)%R
     = Value (pC_raw (mkParams 1000%R 2%R) (1 / 2)%R)) /\
  (@pressure_ok R _ 3%R = true /\
   Sw DebugBuild (mkParams 1000%R 2%R) 3%R
     = Value (Sw_clamped (mkParams 1000%R 2%R) 3%R)) /\
  (@saturation_ok R _ 2%R = false /\
   pC DebugBuild (mkParams 1000%R 2%R) 2%R = AssertionFailed) /\
  (@pressure_ok R _ (Ropp 1) = false /\
   Sw DebugBuild (mkParams 1000%R 2%R) (Ropp 1) = AssertionFailed).
Proof.
  assert (H1 : @saturation_ok R _ (1 / 2)%R = true) by (apply real_saturation_ok; lra).
  assert (H2 : @pressure_ok R _ 3%R = true) by (apply real_pressure_ok; lra).
  assert (H3 : @saturation_ok R _ 2%R = false).
  { unfold saturation_ok. cbn. rewrite (real_leb_false 2 1) by lra. apply andb_false_r. }
  assert (H4 : @pressure_ok R _ (Ropp 1) = false).
  { unfold pressure_ok. cbn. apply real_leb_false. lra. }
  pose proof (proj1 domain_checked_by_assertions_only R RealScalar.ops DebugBuild
                (mkParams 1000%R 2%R)) as T.
  split; [split; [exact H1 | exact (proj1 (proj1 (T (1 / 2)%R) H1))] | ].
  split; [split; [exact H2 | exact (proj1 (proj1 (proj2 (T 3%R)) H2))] | ].
  split; [split; [exact H3 | exact (proj1 (proj1 (proj2 (proj2 (proj2 (proj2 (T 2%R))))) H3))] | ].
  split; [exact H4 | ].
  exact (proj1 (proj2 (proj2 (proj2 (proj2 (proj2 (T (Ropp 1)))))) H4)).
Defined.

End DoubleClaims.

(* ================================================================== *)
(** * Properties of the fluid system *)
(* ================================================================== *)

Section FluidSystem.

Import Simple_H2O_N2_System.

Context {Scalar : Type} `{ScalarOps Scalar}.
Variable ext : Externals Scalar (FluidState Scalar).

Local Open Scope scalar_scope.

Lemma not_component (compIdx : Z) :
  compIdx <> H2OIdx -> compIdx <> N2Idx ->
  (compIdx =? H2OIdx)%Z = false /\ (compIdx =? N2Idx)%Z = false.
Proof. intros H1 H2. split; apply Z.eqb_neq; assumption. Qed.

(** C3.  An index outside the declared set makes the dispatchers throw at
    once: [componentName] and [molarMass] throw [InvalidStateException] for
    every component index other than [H2OIdx] and [N2Idx], [phaseDensity]
    throws it for every phase index other than [lPhaseIdx] and [gPhaseIdx];
    no value is returned and the fluid state is as before. *)
Theorem invalid_index_throws
  (compIdx phaseIdx : Z) (temperature pressure : Scalar) (fs : FluidState Scalar) :
  compIdx <> H2OIdx -> compIdx <> N2Idx ->
  phaseIdx <> lPhaseIdx -> phaseIdx <> gPhaseIdx ->
  componentName ext compIdx
    = Thrown (InvalidStateException ("Invalid component index " ++ show_int compIdx)) /\
  molarMass ext compIdx
    = Thrown (InvalidStateException ("Invalid component index " ++ show_int compIdx)) /\
  phaseDensity ext phaseIdx temperature pressure fs
    = (Thrown (InvalidStateException ("Invalid phase index " ++ show_int phaseIdx)), fs).
Proof.
  intros Hc1 Hc2 Hp1 Hp2.
  destruct (not_component compIdx Hc1 Hc2) as [E1 E2].
  apply Z.eqb_neq in Hp1, Hp2.
  unfold componentName, molarMass, phaseDensity.
  rewrite E1, E2, Hp1, Hp2. repeat split.
Qed.

(** C7 (general part).  For the gas phase [phaseDensity] returns
    [P*M/(R*T)], [M] being the mean of the two molar masses weighted by the
    mole fractions of the gas phase; the fluid state is as before. *)
Lemma gas_phase_density
  (temperature pressure : Scalar) (fs : FluidState Scalar) :
  let M := moleFrac fs gPhaseIdx H2OIdx * H2O_molarMass ext
           + moleFrac fs gPhaseIdx N2Idx * N2_molarMass ext in
  phaseDensity ext gPhaseIdx temperature pressure fs
    = (Value (pressure * M / (IdealGas_R ext * temperature)), fs).
Proof. reflexivity. Qed.

(** [phaseViscosity] has no invalid phase index: for every index other
    than [lPhaseIdx], inside or outside the declared set, it returns the
    viscosity of pure nitrogen gas at the given temperature and pressure and
    throws nothing. *)
Lemma phaseViscosity_defaults_to_gas
  (phaseIdx : Z) (temperature pressure : Scalar) (fs : FluidState Scalar) :
  phaseIdx <> lPhaseIdx ->
  phaseViscosity ext phaseIdx temperature pressure fs
    = (Value (N2_gasViscosity ext temperature pressure), fs).
Proof.
  intros Hp. apply Z.eqb_neq in Hp.
  unfold phaseViscosity. rewrite Hp. reflexivity.
Qed.

(** C10.  For the liquid phase [phaseInternalEnergy] returns the enthalpy
    [h] minus the pressure times the density that [phaseDensity] returns for
    the liquid phase; for the gas phase it returns [h - R*T]. *)
Theorem phaseInternalEnergy_formula
  (temperature pressure : Scalar) (fs : FluidState Scalar) :
  let h (phaseIdx : Z) := enthalpy ext phaseIdx temperature pressure fs in
  let rho := H2O_liquidDensity ext temperature pressure in
  phaseDensity ext lPhaseIdx temperature pressure fs = (Value rho, fs) /\
  phaseInternalEnergy ext lPhaseIdx temperature pressure fs
    = (Value (h lPhaseIdx - pressure * rho), fs) /\
  phaseInternalEnergy ext gPhaseIdx temperature pressure fs
    = (Value (h gPhaseIdx - IdealGas_R ext * temperature), fs).
Proof. repeat split. Qed.

(** Returning, throwing and the getters keep the state, and so does a
    sequence of calls that keep it. *)
Lemma keeps_ret {A : Type} (a : A) : keeps_state (Scalar := Scalar) (ret a).
Proof. intros fs. reflexivity. Qed.

Lemma keeps_throw {A : Type} (e : exception) :
  keeps_state (Scalar := Scalar) (throw (A := A) e).
Proof. intros fs. reflexivity. Qed.

Lemma keeps_reads {A : Type} (f : FluidState Scalar -> A) : keeps_state (reads f).
Proof. intros fs. reflexivity. Qed.

Lemma keeps_get_moleFrac (phaseIdx compIdx : Z) :
  keeps_state (Scalar := Scalar) (get_moleFrac phaseIdx compIdx).
Proof. intros fs. reflexivity. Qed.

Lemma keeps_bind {A B : Type} (m : call Scalar A) (k : A -> call Scalar B) :
  keeps_state m -> (forall a : A, keeps_state (k a)) -> keeps_state (bind m k).
Proof.
  intros Hm Hk fs. unfold bind.
  specialize (Hm fs). destruct (m fs) as [o fs']. cbn in Hm. subst fs'.
  destruct o as [a | e | ]; [apply Hk | reflexivity | reflexivity].
Qed.

Create HintDb keeps discriminated.

#[local] Hint Resolve keeps_ret keeps_throw keeps_reads keeps_get_moleFrac : keeps.
#[local] Hint Extern 2 (keeps_state (bind _ _)) => apply keeps_bind; [ | intro ] : keeps.

(** The member functions that take the fluid state by constant reference
    leave it as it was, whatever they return. *)
Lemma phaseDensity_keeps_state (phaseIdx : Z) (temperature pressure : Scalar) :
  keeps_state (phaseDensity ext phaseIdx temperature pressure).
Proof.
  unfold phaseDensity.
  destruct (phaseIdx =? lPhaseIdx)%Z; [auto with keeps | ].
  destruct (phaseIdx =? gPhaseIdx)%Z; auto 6 with keeps.
Qed.

Lemma phaseViscosity_keeps_state (phaseIdx : Z) (temperature pressure : Scalar) :
  keeps_state (phaseViscosity ext phaseIdx temperature pressure).
Proof.
  unfold phaseViscosity.
  destruct (phaseIdx =? lPhaseIdx)%Z; auto with keeps.
Qed.

Lemma phaseInternalEnergy_keeps_state (phaseIdx : Z) (temperature pressure : Scalar) :
  keeps_state (phaseInternalEnergy ext phaseIdx temperature pressure).
Proof.
  unfold phaseInternalEnergy.
  apply keeps_bind; [auto with keeps | intros h].
  destruct (phaseIdx =? lPhaseIdx)%Z; [ | auto with keeps].
  apply keeps_bind; [apply phaseDensity_keeps_state | auto with keeps].
Qed.

(** [computePartialPressures] returns nothing and rewrites the two partial
    pressures; mole and mass fractions and every other entry stay. *)
Lemma computePartialPressures_effect
  (temperature pg : Scalar) (fs : FluidState Scalar) :
  let after := snd (computePartialPressures temperature pg fs) in
  fst (computePartialPressures temperature pg fs) = Value tt /\
  moleFrac after = moleFrac fs /\
  massFrac after = massFrac fs /\
  partialPressure after H2OIdx = pg * moleFrac fs gPhaseIdx H2OIdx /\
  partialPressure after N2Idx = pg * moleFrac fs gPhaseIdx N2Idx /\
  (forall i : Z, i <> H2OIdx -> i <> N2Idx ->
     partialPressure after i = partialPressure fs i).
Proof.
  cbv zeta. repeat split.
  intros i H1 H2. apply Z.eqb_neq in H1, H2.
  cbn. rewrite H1, H2. reflexivity.
Qed.

End FluidSystem.

Section FluidSystemClaims.

Import Simple_H2O_N2_System.

Lemma invalid_index_throws_witness :
  (2 <> H2OIdx /\ 2 <> N2Idx /\ -1 <> lPhaseIdx /\ -1 <> gPhaseIdx) /\
  componentName Examples.r_externals 2
    = Thrown (InvalidStateException "Invalid component index 2") /\
  molarMass Examples.r_externals 2
    = Thrown (InvalidStateException "Invalid component index 2") /\
  phaseDensity Examples.r_externals (-1) 300%R 100000%R Examples.r_fluidState
    = (Thrown (InvalidStateException "Invalid phase index -1"), Examples.r_fluidState).
Proof.
  assert (Hc1 : 2 <> H2OIdx) by discriminate.
  assert (Hc2 : 2 <> N2Idx) by discriminate.
  assert (Hp1 : -1 <> lPhaseIdx) by discriminate.
  assert (Hp2 : -1 <> gPhaseIdx) by discriminate.
  split; [repeat split; assumption | ].
  exact (invalid_index_throws Examples.r_externals 2 (-1) 300%R 100000%R
           Examples.r_fluidState Hc1 Hc2 Hp1 Hp2).
Defined.

(** C7.  For the gas phase [phaseDensity] returns [P*M/(R*T)] with [M] the
    mole-fraction-weighted mean molar mass of the gas phase, in every
    arithmetic; in particular, when that mean is 0.02 kg/mol, the density at
    300 K and 1e5 Pa is [1e5 * 0.02 / (R * 300)]. *)
Theorem ideal_gas_phase_density :
  (forall (Scalar : Type) (ops : ScalarOps Scalar)
          (ext : Externals Scalar (FluidState Scalar))
          (temperature pressure : Scalar) (fs : FluidState Scalar),
     phaseDensity ext gPhaseIdx temperature pressure fs
       = (Value (pressure
                 * (moleFrac fs gPhaseIdx H2OIdx * H2O_molarMass ext
                    + moleFrac fs gPhaseIdx N2Idx * N2_molarMass ext)
                 / (IdealGas_R ext * temperature))%S, fs)) /\
  (forall (ext : Externals R (FluidState R)) (fs : FluidState R),
     (moleFrac fs gPhaseIdx H2OIdx * H2O_molarMass ext
      + moleFrac fs gPhaseIdx N2Idx * N2_molarMass ext = 0.02)%R ->
     phaseDensity ext gPhaseIdx 300%R 100000%R fs
       = (Value (100000 * 0.02 / (IdealGas_R ext * 300))%R, fs)).
Proof.
  split.
  - intros. apply gas_phase_density.
  - intros ext fs HM.
    rewrite gas_phase_density. cbv zeta. cbn [Smul Sadd Sdiv RealScalar.ops].
    rewrite HM. reflexivity.
Qed.

Lemma ideal_gas_phase_density_witness :
  (moleFrac Examples.r_fluidState gPhaseIdx H2OIdx * 0.018
   + moleFrac Examples.r_fluidState gPhaseIdx N2Idx * 0.028 = 0.02)%R /\
  phaseDensity Examples.r_externals gPhaseIdx 300%R 100000%R Examples.r_fluidState
    = (Value (100000 * 0.02 / (8.314472 * 300))%R, Examples.r_fluidState).
Proof.
  assert (HM : (moleFrac Examples.r_fluidState gPhaseIdx H2OIdx * 0.018
                + moleFrac Examples.r_fluidState gPhaseIdx N2Idx * 0.028 = 0.02)%R)
    by (cbn; lra).
  split; [exact HM | ].
  exact (proj2 ideal_gas_phase_density Examples.r_externals Examples.r_fluidState HM).
Defined.


End FluidSystemClaims.

(* ================================================================== *)
(** * Further properties of the Brooks-Corey curves, exact arithmetic *)
(* ================================================================== *)

Section RealCurveShape.

Import BrooksCorey.
Local Open Scope R_scope.

Lemma Rpower_one_base (y : R) : Rpower 1 y = 1.
Proof. unfold Rpower. rewrite ln_1, Rmult_0_r. apply exp_0. Qed.

(** A power with a positive exponent keeps [(0,1]] inside [(0,1]]. *)
Lemma Rpower_unit_interval (x c : R) :
  0 < x <= 1 -> 0 <= c -> 0 < Rpower x c <= 1.
Proof.
  intros Hx Hc. split; [apply Rpower_positive | ].
  rewrite <- (Rpower_one_base c). apply Rle_Rpower_l; lra.
Qed.

(** A power with a positive exponent of a base of at least one is at least
    one. *)
Lemma Rpower_ge_one (x c : R) : 1 <= x -> 0 <= c -> 1 <= Rpower x c.
Proof.
  intros Hx Hc. rewrite <- (Rpower_one_base c). apply Rle_Rpower_l; lra.
Qed.

(** In the domain, both builds return the formula. *)
Lemma real_pC_value (b : build) (params : Params R) (s : R) :
  0 <= s <= 1 -> pC b params s = Value (pC_raw params s).
Proof.
  intros Hs. apply (assertions_decide b params s). apply real_saturation_ok, Hs.
Qed.

Lemma real_dpC_dSw_value (b : build) (params : Params R) (s : R) :
  0 <= s <= 1 -> dpC_dSw b params s = Value (dpC_dSw_raw params s).
Proof.
  intros Hs. apply (assertions_decide b params s). apply real_saturation_ok, Hs.
Qed.

Lemma real_krw_value (b : build) (params : Params R) (s : R) :
  0 <= s <= 1 -> krw b params s = Value (krw_raw params s).
Proof.
  intros Hs. apply (assertions_decide b params s). apply real_saturation_ok, Hs.
Qed.

Lemma real_krn_value (b : build) (params : Params R) (s : R) :
  0 <= s <= 1 -> krn b params s = Value (krn_raw params s).
Proof.
  intros Hs. apply (assertions_decide b params s). apply real_saturation_ok, Hs.
Qed.

Lemma real_Sw_value (b : build) (params : Params R) (p : R) :
  0 <= p -> Sw b params p = Value (Sw_clamped params p).
Proof.
  intros Hp. apply (assertions_decide b params p). apply real_pressure_ok, Hp.
Qed.

Lemma real_dSw_dpC_value (b : build) (params : Params R) (p : R) :
  0 <= p -> dSw_dpC b params p = Value (dSw_dpC_raw params p).
Proof.
  intros Hp. apply (assertions_decide b params p). apply real_pressure_ok, Hp.
Qed.

(** The clamp of [Sw] over the reals is [min(max(t, 0), 1)]. *)
Lemma real_clamp_min_max (t : R) :
  std_min (std_max t (fromZ 0)) (fromZ 1) = Rmin (Rmax t 0) 1.
Proof.
  unfold std_min, std_max. cbn.
  unfold RealScalar.ltb, Rmin, Rmax.
  destruct (Rlt_dec t 0), (Rle_dec t 0); try lra;
    repeat match goal with
           | |- context [Rlt_dec ?a ?b] => destruct (Rlt_dec a b)
           | |- context [Rle_dec ?a ?b] => destruct (Rle_dec a b)
           end; lra.
Qed.

(** The unclamped saturation at a positive pressure. *)
Lemma real_Sw_raw_at (params : Params R) (p : R) :
  0 < pe params -> 0 < alpha params -> 0 < p ->
  Sw_raw params p = Rpower (p / pe params) (- alpha params).
Proof.
  intros Hpe Ha Hp.
  replace p with (pe params * (p / pe params)) at 1 by (field; lra).
  apply real_Sw_raw; try assumption.
  apply Rdiv_lt_0_compat; assumption.
Qed.

(** X1.  The capillary pressure falls strictly as the saturation rises: for
    [pe > 0], [alpha > 0] and [0 < s1 < s2 <= 1], both calls return their
    formula and [pC(params, s2) < pC(params, s1)]. *)
Theorem pC_strictly_decreasing (b : build) (params : Params R) (s1 s2 : R) :
  0 < pe params -> 0 < alpha params -> 0 < s1 -> s1 < s2 -> s2 <= 1 ->
  pC b params s1 = Value (pC_raw params s1) /\
  pC b params s2 = Value (pC_raw params s2) /\
  pC_raw params s2 < pC_raw params s1.
Proof.
  intros Hpe Ha H1 H12 H2.
  split; [apply real_pC_value; lra | ].
  split; [apply real_pC_value; lra | ].
  rewrite !real_pC_raw by lra.
  rewrite !Rpower_Ropp.
  assert (Hc : 0 < 1 / alpha params) by (apply Rdiv_lt_0_compat; lra).
  pose proof (Rlt_Rpower_l s1 s2 (1 / alpha params) Hc (conj H1 H12)) as Hlt.
  pose proof (Rpower_positive s1 (1 / alpha params)) as Hp1.
  apply Rmult_lt_compat_l; [exact Hpe | ].
  apply Rinv_0_lt_contravar; assumption.
Qed.

Lemma pC_strictly_decreasing_witness :
  (0 < 1000 /\ 0 < 2 /\ 0 < 1 / 4 /\ 1 / 4 < 1 / 2 /\ 1 / 2 <= 1) /\
  pC_raw (mkParams 1000 2) (1 / 2) < pC_raw (mkParams 1000 2) (1 / 4).
Proof.
  split; [lra | ].
  apply (pC_strictly_decreasing DebugBuild (mkParams 1000 2) (1 / 4) (1 / 2)); cbn; lra.
Defined.

(** X2.  Full saturation and the entry pressure belong together: for
    [pe > 0] and [alpha > 0], [pC(params, 1)] is [pe] and [Sw(params, pe)]
    is [1]. *)
Theorem entry_pressure_at_full_saturation (b : build) (params : Params R) :
  0 < pe params -> 0 < alpha params ->
  pC b params 1 = Value (pe params) /\
  Sw b params (pe params) = Value 1.
Proof.
  intros Hpe Ha. split.
  - rewrite real_pC_value by lra.
    rewrite real_pC_raw by lra. rewrite Rpower_one_base. f_equal. lra.
  - rewrite real_Sw_value by lra. f_equal.
    unfold Sw_clamped. cbv zeta.
    rewrite real_Sw_raw_at by lra.
    replace (pe params / pe params) with 1 by (field; lra).
    rewrite Rpower_one_base. apply real_clamp_inside. lra.
Qed.

Lemma entry_pressure_at_full_saturation_witness :
  (0 < 1000 /\ 0 < 2) /\
  pC DebugBuild (mkParams 1000 2) 1 = Value 1000 /\
  Sw DebugBuild (mkParams 1000 2) 1000 = Value 1.
Proof.
  split; [lra | ].
  apply (entry_pressure_at_full_saturation DebugBuild (mkParams 1000 2)); cbn; lra.
Defined.

(** X3.  Below the entry pressure the medium is fully saturated: for
    [pe > 0], [alpha > 0] and [0 < pC <= pe] the raw value is at least 1
    and [Sw] returns exactly 1. *)
Theorem Sw_saturates_below_entry_pressure (b : build) (params : Params R) (p : R) :
  0 < pe params -> 0 < alpha params -> 0 < p -> p <= pe params ->
  1 <= Sw_raw params p /\ Sw b params p = Value 1.
Proof.
  intros Hpe Ha Hp Hle.
  assert (Hx : 0 < p / pe params <= 1).
  { split; [apply Rdiv_lt_0_compat; assumption | ].
    apply Rmult_le_reg_r with (pe params); [exact Hpe | ].
    replace (p / pe params * pe params) with p by (field; lra). lra. }
  assert (Hraw : 1 <= Sw_raw params p).
  { rewrite real_Sw_raw_at by assumption. rewrite Rpower_Ropp.
    pose proof (Rpower_unit_interval (p / pe params) (alpha params) Hx (Rlt_le _ _ Ha))
      as [Hpos Hle1].
    rewrite <- Rinv_1 at 1. apply Rinv_le_contravar; assumption. }
  split; [exact Hraw | ].
  rewrite real_Sw_value by lra. f_equal.
  unfold Sw_clamped. cbv zeta. rewrite real_clamp_min_max.
  unfold Rmin, Rmax.
  repeat match goal with
         | |- context [Rle_dec ?a ?c] => destruct (Rle_dec a c)
         end; lra.
Qed.

Lemma Sw_saturates_below_entry_pressure_witness :
  (0 < 1000 /\ 0 < 2 /\ 0 < 500 /\ 500 <= 1000) /\
  Sw DebugBuild (mkParams 1000 2) 500 = Value 1.
Proof.
  split; [lra | ].
  apply (Sw_saturates_below_entry_pressure DebugBuild (mkParams 1000 2) 500); cbn; lra.
Defined.

End RealCurveShape.

Section RealCurveInverse.

Import BrooksCorey.
Local Open Scope R_scope.

(** At or above the entry pressure the raw saturation is in [(0,1]]. *)
Lemma real_Sw_raw_range (params : Params R) (p : R) :
  0 < pe params -> 0 < alpha params -> pe params <= p ->
  0 < Sw_raw params p <= 1.
Proof.
  intros Hpe Ha Hp.
  rewrite real_Sw_raw_at by lra. rewrite Rpower_Ropp.
  assert (Hx : 1 <= p / pe params).
  { apply Rmult_le_reg_r with (pe params); [exact Hpe | ].
    replace (p / pe params * pe params) with p by (field; lra). lra. }
  pose proof (Rpower_ge_one (p / pe params) (alpha params) Hx (Rlt_le _ _ Ha)) as Hge.
  split.
  - apply Rinv_0_lt_compat. lra.
  - rewrite <- Rinv_1. apply Rinv_le_contravar; lra.
Qed.

(** X4.  The round trip the other way: for [pe > 0], [alpha > 0] and a
    capillary pressure [pC >= pe], [Sw] returns the unclamped value
    [(pC/pe)^(-alpha)], a saturation in [(0,1]], and [pC] of that
    saturation is the pressure again. *)
Theorem roundtrip_from_pressure (b : build) (params : Params R) (p : R) :
  0 < pe params -> 0 < alpha params -> pe params <= p ->
  Sw b params p = Value (Sw_raw params p) /\
  0 < Sw_raw params p <= 1 /\
  pC b params (Sw_raw params p) = Value p.
Proof.
  intros Hpe Ha Hp.
  pose proof (real_Sw_raw_range params p Hpe Ha Hp) as Hr.
  split; [ | split; [exact Hr | ]].
  - rewrite real_Sw_value by lra. f_equal.
    unfold Sw_clamped. cbv zeta. apply real_clamp_inside. lra.
  - rewrite real_pC_value by lra. f_equal.
    rewrite real_pC_raw by lra.
    rewrite real_Sw_raw_at by lra.
    rewrite Rpower_mult.
    replace (- alpha params * - (1 / alpha params)) with 1 by (field; lra).
    rewrite Rpower_1.
    + field. lra.
    + apply Rdiv_lt_0_compat; lra.
Qed.

Lemma roundtrip_from_pressure_witness :
  (0 < 1000 /\ 0 < 2 /\ 1000 <= 2000) /\
  pC DebugBuild (mkParams 1000 2) (Sw_raw (mkParams 1000 2) 2000) = Value 2000.
Proof.
  split; [lra | ].
  apply (roundtrip_from_pressure DebugBuild (mkParams 1000 2) 2000); cbn; lra.
Defined.

(** X5.  The saturation never rises with the pressure: for [pe > 0],
    [alpha > 0] and [0 < p1 <= p2], [Sw(params, p2) <= Sw(params, p1)]. *)
Theorem Sw_nonincreasing (b : build) (params : Params R) (p1 p2 : R) :
  0 < pe params -> 0 < alpha params -> 0 < p1 -> p1 <= p2 ->
  Sw b params p1 = Value (Sw_clamped params p1) /\
  Sw b params p2 = Value (Sw_clamped params p2) /\
  Sw_clamped params p2 <= Sw_clamped params p1.
Proof.
  intros Hpe Ha H1 H12.
  split; [apply real_Sw_value; lra | ].
  split; [apply real_Sw_value; lra | ].
  assert (Hraw : Sw_raw params p2 <= Sw_raw params p1).
  { rewrite !real_Sw_raw_at by lra. rewrite !Rpower_Ropp.
    assert (Hx1 : 0 < p1 / pe params) by (apply Rdiv_lt_0_compat; lra).
    assert (Hx12 : p1 / pe params <= p2 / pe params).
    { unfold Rdiv. apply Rmult_le_compat_r; [ | exact H12].
      apply Rlt_le, Rinv_0_lt_compat, Hpe. }
    apply Rinv_le_contravar; [apply Rpower_positive | ].
    apply Rle_Rpower_l; lra. }
  unfold Sw_clamped. cbv zeta. rewrite !real_clamp_min_max.
  apply Rle_min_compat_r. apply Rle_max_compat_r. exact Hraw.
Qed.

Lemma Sw_nonincreasing_witness :
  (0 < 1000 /\ 0 < 2 /\ 0 < 1500 /\ 1500 <= 3000) /\
  Sw_clamped (mkParams 1000 2) 3000 <= Sw_clamped (mkParams 1000 2) 1500.
Proof.
  split; [lra | ].
  apply (Sw_nonincreasing DebugBuild (mkParams 1000 2) 1500 3000); cbn; lra.
Defined.

End RealCurveInverse.

Section RealCurveDerivatives.

Import BrooksCorey.
Local Open Scope R_scope.

(** The two derivative formulas at a positive argument. *)
Lemma real_dpC_dSw_raw (params : Params R) (s : R) :
  0 < alpha params -> 0 < s ->
  dpC_dSw_raw params s =
    pe params * (- (1 / alpha params) * Rpower s (- (1 / alpha params) - 1)).
Proof.
  intros Ha Hs. unfold dpC_dSw_raw. cbn.
  assert (Hinv : 0 < / alpha params) by (apply Rinv_0_lt_compat; exact Ha).
  rewrite real_pow_positive; [ | exact Hs | unfold Rdiv; lra].
  replace (- (1) / alpha params - 1) with (- (1 / alpha params) - 1) by (field; lra).
  field. lra.
Qed.

Lemma real_dSw_dpC_raw (params : Params R) (p : R) :
  0 < pe params -> 0 < alpha params -> 0 < p ->
  dSw_dpC_raw params p =
    - alpha params / pe params * Rpower (p / pe params) (- alpha params - 1).
Proof.
  intros Hpe Ha Hp. unfold dSw_dpC_raw. cbn.
  rewrite real_pow_positive; [reflexivity | | lra].
  apply Rdiv_lt_0_compat; assumption.
Qed.

(** X6.  [dpC_dSw] is the derivative of [pC]: for [alpha > 0] and every
    saturation [s > 0], the function [Swe -> pe * Swe^(-1/alpha)] that [pC]
    computes has at [s] the derivative that [dpC_dSw] computes. *)
Theorem dpC_dSw_is_derivative (params : Params R) (s : R) :
  0 < alpha params -> 0 < s ->
  derivable_pt_lim (pC_raw params) s (dpC_dSw_raw params s).
Proof.
  intros Ha Hs.
  rewrite real_dpC_dSw_raw by assumption.
  apply derivable_pt_lim_locally_ext
    with (f := mult_real_fct (pe params)
                 (fun x => Rpower x (- (1 / alpha params))))
         (a := 0) (b := s + 1).
  - lra.
  - intros z [Hz _]. unfold mult_real_fct.
    symmetry. apply real_pC_raw; assumption.
  - apply derivable_pt_lim_scal. apply derivable_pt_lim_power. exact Hs.
Qed.

Lemma dpC_dSw_is_derivative_witness :
  (0 < 2 /\ 0 < 1 / 2) /\
  derivable_pt_lim (pC_raw (mkParams 1000 2)) (1 / 2)
    (dpC_dSw_raw (mkParams 1000 2) (1 / 2)).
Proof.
  split; [lra | ].
  apply (dpC_dSw_is_derivative (mkParams 1000 2) (1 / 2)); cbn; lra.
Defined.

(** X7.  [dSw_dpC] is the derivative of the unclamped saturation curve: for
    [pe > 0], [alpha > 0] and every pressure [p > 0], the function
    [pC -> (pC/pe)^(-alpha)] has at [p] the derivative that [dSw_dpC]
    computes. *)
Theorem dSw_dpC_is_derivative (params : Params R) (p : R) :
  0 < pe params -> 0 < alpha params -> 0 < p ->
  derivable_pt_lim (Sw_raw params) p (dSw_dpC_raw params p).
Proof.
  intros Hpe Ha Hp.
  assert (Hipe : 0 < / pe params) by (apply Rinv_0_lt_compat; exact Hpe).
  set (a := - alpha params).
  assert (El : dSw_dpC_raw params p =
               Rpower (/ pe params) a * (a * Rpower p (a - 1))).
  { rewrite real_dSw_dpC_raw by assumption. fold a.
    assert (H1 : Rpower (p / pe params) (a - 1)
                 = Rpower p (a - 1) * Rpower (/ pe params) (a - 1))
      by (symmetry; apply Rpower_mult_distr; assumption).
    assert (H2 : Rpower (/ pe params) a = Rpower (/ pe params) (a - 1) * / pe params).
    { replace a with (a - 1 + 1) at 1 by lra.
      rewrite Rpower_plus, Rpower_1 by exact Hipe. reflexivity. }
    rewrite H1, H2. unfold Rdiv. ring. }
  rewrite El.
  apply derivable_pt_lim_locally_ext
    with (f := mult_real_fct (Rpower (/ pe params) a) (fun x => Rpower x a))
         (a := 0) (b := p + 1).
  - lra.
  - intros z [Hz _]. unfold mult_real_fct.
    rewrite real_Sw_raw_at by assumption. fold a.
    unfold Rdiv. rewrite <- Rpower_mult_distr by assumption. ring.
  - apply derivable_pt_lim_scal. apply derivable_pt_lim_power. exact Hp.
Qed.

Lemma dSw_dpC_is_derivative_witness :
  (0 < 1000 /\ 0 < 2 /\ 0 < 1500) /\
  derivable_pt_lim (Sw_raw (mkParams 1000 2)) 1500
    (dSw_dpC_raw (mkParams 1000 2) 1500).
Proof.
  split; [lra | ].
  apply (dSw_dpC_is_derivative (mkParams 1000 2) 1500); cbn; lra.
Defined.

(** X8.  The two derivatives are reciprocal along the curve: for [pe > 0],
    [alpha > 0] and a saturation [0 < s <= 1], the three calls return their
    formulas and [dSw_dpC(params, pC(params, s)) * dpC_dSw(params, s) = 1]. *)
Theorem derivatives_are_reciprocal (b : build) (params : Params R) (s : R) :
  0 < pe params -> 0 < alpha params -> 0 < s -> s <= 1 ->
  pC b params s = Value (pC_raw params s) /\
  dpC_dSw b params s = Value (dpC_dSw_raw params s) /\
  dSw_dpC b params (pC_raw params s) = Value (dSw_dpC_raw params (pC_raw params s)) /\
  dSw_dpC_raw params (pC_raw params s) * dpC_dSw_raw params s = 1.
Proof.
  intros Hpe Ha Hs0 Hs1.
  assert (Hx : 0 < Rpower s (- (1 / alpha params))) by apply Rpower_positive.
  assert (Hpc : pC_raw params s = pe params * Rpower s (- (1 / alpha params)))
    by (apply real_pC_raw; assumption).
  assert (Hpos : 0 < pC_raw params s)
    by (rewrite Hpc; apply Rmult_lt_0_compat; assumption).
  split; [apply real_pC_value; lra | ].
  split; [apply real_dpC_dSw_value; lra | ].
  split; [apply real_dSw_dpC_value; lra | ].
  rewrite real_dSw_dpC_raw by assumption.
  rewrite real_dpC_dSw_raw by assumption.
  rewrite Hpc.
  replace (pe params * Rpower s (- (1 / alpha params)) / pe params)
    with (Rpower s (- (1 / alpha params))) by (field; lra).
  rewrite Rpower_mult.
  transitivity (Rpower s (- (1 / alpha params) * (- alpha params - 1))
                * Rpower s (- (1 / alpha params) - 1)).
  - field. lra.
  - rewrite <- Rpower_plus.
    replace (- (1 / alpha params) * (- alpha params - 1) + (- (1 / alpha params) - 1))
      with 0 by (field; lra).
    apply Rpower_O. exact Hs0.
Qed.

Lemma derivatives_are_reciprocal_witness :
  (0 < 1000 /\ 0 < 2 /\ 0 < 1 / 2 /\ 1 / 2 <= 1) /\
  dSw_dpC_raw (mkParams 1000 2) (pC_raw (mkParams 1000 2) (1 / 2))
    * dpC_dSw_raw (mkParams 1000 2) (1 / 2) = 1.
Proof.
  split; [lra | ].
  apply (derivatives_are_reciprocal DebugBuild (mkParams 1000 2) (1 / 2)); cbn; lra.
Defined.

End RealCurveDerivatives.

Section RealPermeabilities.

Import BrooksCorey.
Local Open Scope R_scope.

(** [pow] on a base of [[0,1]] with a positive exponent stays in [[0,1]],
    is 0 at 0 and 1 at 1, and rises strictly with the base. *)
Lemma real_pow_unit_interval (x c : R) :
  0 <= x <= 1 -> 0 < c -> 0 <= RealScalar.pow x c <= 1.
Proof.
  intros [Hx0 Hx1] Hc. unfold RealScalar.pow.
  destruct (Req_dec_T c 0) as [E | _]; [lra | ].
  destruct (Rlt_dec 0 x) as [Hpos | _]; [ | lra].
  pose proof (Rpower_unit_interval x c (conj Hpos Hx1) (Rlt_le _ _ Hc)). lra.
Qed.

Lemma real_pow_zero_base (c : R) : 0 < c -> RealScalar.pow 0 c = 0.
Proof.
  intros Hc. unfold RealScalar.pow.
  destruct (Req_dec_T c 0) as [E | _]; [lra | ].
  destruct (Rlt_dec 0 0) as [Hpos | _]; [lra | reflexivity].
Qed.

Lemma real_pow_one_base (c : R) : RealScalar.pow 1 c = 1.
Proof.
  unfold RealScalar.pow.
  destruct (Req_dec_T c 0) as [E | _]; [reflexivity | ].
  destruct (Rlt_dec 0 1) as [_ | N]; [apply Rpower_one_base | lra].
Qed.

Lemma real_pow_increasing (x y c : R) :
  0 <= x -> x < y -> 0 < c -> RealScalar.pow x c < RealScalar.pow y c.
Proof.
  intros Hx Hxy Hc. unfold RealScalar.pow.
  destruct (Req_dec_T c 0) as [E | _]; [lra | ].
  destruct (Rlt_dec 0 y) as [_ | N]; [ | lra].
  destruct (Rlt_dec 0 x) as [Hpos | _].
  - apply Rlt_Rpower_l; [exact Hc | lra].
  - apply Rpower_positive.
Qed.

(** The two exponents are positive. *)
Lemma krw_exponent_positive (a : R) : 0 < a -> 0 < (2 + 3 * a) / a.
Proof. intros Ha. apply Rdiv_lt_0_compat; lra. Qed.

Lemma krn_exponent_positive (a : R) : 0 < a -> 0 < (2 + a) / a.
Proof. intros Ha. apply Rdiv_lt_0_compat; lra. Qed.

(** X9.  The relative permeabilities are fractions: for [alpha > 0] and a
    mobile saturation in [[0,1]], [krw] and [krn] return values in [[0,1]];
    at saturation 0 they return 0 and 1, at saturation 1 they return 1 and
    0. *)
Theorem relative_permeabilities_are_fractions
  (b : build) (params : Params R) (s : R) :
  0 < alpha params -> 0 <= s -> s <= 1 ->
  (krw b params s = Value (krw_raw params s) /\ 0 <= krw_raw params s <= 1) /\
  (krn b params s = Value (krn_raw params s) /\ 0 <= krn_raw params s <= 1) /\
  (krw b params 0 = Value 0 /\ krn b params 0 = Value 1) /\
  (krw b params 1 = Value 1 /\ krn b params 1 = Value 0).
Proof.
  intros Ha Hs0 Hs1.
  pose proof (krw_exponent_positive _ Ha) as Hew.
  pose proof (krn_exponent_positive _ Ha) as Hen.
  split; [split; [apply real_krw_value; lra | ] | ].
  { unfold krw_raw. cbn. apply real_pow_unit_interval; [lra | exact Hew]. }
  split; [split; [apply real_krn_value; lra | ] | ].
  { unfold krn_raw. cbn.
    pose proof (real_pow_unit_interval s _ (conj Hs0 Hs1) Hen) as Hp.
    set (q := RealScalar.pow s ((2 + alpha params) / alpha params)) in *.
    assert (Hu : 0 <= (1 - s) * (1 - s) <= 1) by nra.
    set (u := (1 - s) * (1 - s)) in *.
    split.
    - apply Rmult_le_pos; lra.
    - replace 1 with (1 * 1) by ring.
      apply Rmult_le_compat; lra. }
  split; split.
  - rewrite real_krw_value by lra. f_equal.
    unfold krw_raw. cbn. apply real_pow_zero_base, Hew.
  - rewrite real_krn_value by lra. f_equal.
    unfold krn_raw. cbn. rewrite real_pow_zero_base by exact Hen. lra.
  - rewrite real_krw_value by lra. f_equal.
    unfold krw_raw. cbn. apply real_pow_one_base.
  - rewrite real_krn_value by lra. f_equal.
    unfold krn_raw. cbn. rewrite real_pow_one_base. lra.
Qed.

Lemma relative_permeabilities_are_fractions_witness :
  (0 < 2 /\ 0 <= 1 / 2 /\ 1 / 2 <= 1) /\
  0 <= krw_raw (mkParams 1000 2) (1 / 2) <= 1 /\
  0 <= krn_raw (mkParams 1000 2) (1 / 2) <= 1.
Proof.
  split; [lra | ].
  pose proof (relative_permeabilities_are_fractions DebugBuild (mkParams 1000 2) (1 / 2))
    as T.
  cbn [alpha] in T.
  assert (H1 : 0 < 2) by lra.
  assert (H2 : 0 <= 1 / 2) by lra.
  assert (H3 : 1 / 2 <= 1) by lra.
  destruct (T H1 H2 H3) as [[_ Hw] [[_ Hn] _]].
  split; assumption.
Defined.

(** X10.  More wetting phase means more wetting-phase mobility and less
    non-wetting-phase mobility: for [alpha > 0] and [0 <= s1 < s2 <= 1],
    [krw(params, s1) < krw(params, s2)] and
    [krn(params, s2) < krn(params, s1)]. *)
Theorem relative_permeabilities_monotone (params : Params R) (s1 s2 : R) :
  0 < alpha params -> 0 <= s1 -> s1 < s2 -> s2 <= 1 ->
  krw_raw params s1 < krw_raw params s2 /\
  krn_raw params s2 < krn_raw params s1.
Proof.
  intros Ha H1 H12 H2.
  pose proof (krw_exponent_positive _ Ha) as Hew.
  pose proof (krn_exponent_positive _ Ha) as Hen.
  split.
  - unfold krw_raw. cbn. apply real_pow_increasing; assumption.
  - unfold krn_raw. cbn.
    pose proof (real_pow_increasing s1 s2 _ H1 H12 Hen) as Hinc.
    pose proof (real_pow_unit_interval s1 _ (conj H1 (Rle_trans _ _ _ (Rlt_le _ _ H12) H2)) Hen)
      as Hq1.
    pose proof (real_pow_unit_interval s2 _ (conj (Rle_trans _ _ _ H1 (Rlt_le _ _ H12)) H2) Hen)
      as Hq2.
    set (q1 := RealScalar.pow s1 ((2 + alpha params) / alpha params)) in *.
    set (q2 := RealScalar.pow s2 ((2 + alpha params) / alpha params)) in *.
    assert (Hsq : (1 - s2) * (1 - s2) < (1 - s1) * (1 - s1)) by nra.
    assert (Hsq2 : 0 <= (1 - s2) * (1 - s2)) by nra.
    apply Rle_lt_trans with ((1 - s2) * (1 - s2) * (1 - q1)).
    + apply Rmult_le_compat_l; lra.
    + apply Rmult_lt_compat_r; [ | exact Hsq].
      assert (Hq1lt : q1 < 1) by lra. lra.
Qed.

Lemma relative_permeabilities_monotone_witness :
  (0 < 2 /\ 0 <= 1 / 4 /\ 1 / 4 < 1 / 2 /\ 1 / 2 <= 1) /\
  krw_raw (mkParams 1000 2) (1 / 4) < krw_raw (mkParams 1000 2) (1 / 2) /\
  krn_raw (mkParams 1000 2) (1 / 2) < krn_raw (mkParams 1000 2) (1 / 4).
Proof.
  split; [lra | ].
  apply (relative_permeabilities_monotone (mkParams 1000 2) (1 / 4) (1 / 2)); cbn; lra.
Defined.

End RealPermeabilities.

(* ================================================================== *)
(** * Edge values of the Brooks-Corey curves, double arithmetic *)
(* ================================================================== *)

Section DoubleEdges.

Import BrooksCorey.
Import DoubleScalar.

Variable libm_pow : double -> double -> double.

(** [pow(+1, y)] is 1 for every [y], a NaN included. *)
Lemma pow_base_one (y : double) : pow libm_pow one y = one.
Proof.
  unfold pow. cbv zeta.
  destruct (SFeqb y zero); [reflexivity | ].
  change (SFeqb one one) with true. reflexivity.
Qed.

(** [pow(+0, y)] is plus infinity for every negative [y]. *)
Lemma pow_zero_negative (y : double) :
  SFltb y zero = true -> pow libm_pow zero y = pinf.
Proof.
  intros Hy.
  destruct y as [s | s | | s m e]; try discriminate;
    destruct s; try discriminate.
  - reflexivity.
  - unfold pow. cbv zeta.
    change (SFeqb (S754_finite true m e) zero) with false.
    change (SFeqb zero one) with false.
    change (isnan zero || isnan (S754_finite true m e)) with false.
    change (SFltb (S754_finite true m e) zero) with true.
    cbv iota beta.
    destruct (is_odd_integer (S754_finite true m e)); reflexivity.
Qed.

(** A positive double is a positive finite number or plus infinity. *)
Lemma positive_cases (x : double) :
  SFltb zero x = true ->
  x = pinf \/ exists m e, x = S754_finite false m e.
Proof.
  intros Hx.
  destruct x as [s | s | | s m e]; try discriminate;
    destruct s; try discriminate.
  - left. reflexivity.
  - right. exists m, e. reflexivity.
Qed.

Lemma zero_over_positive (x : double) :
  SFltb zero x = true -> SFdiv prec emax zero x = zero.
Proof.
  intros Hx. destruct (positive_cases x Hx) as [E | [m [e E]]]; subst x; reflexivity.
Qed.

Lemma opp_positive_is_negative (x : double) :
  SFltb zero x = true -> SFltb (SFopp x) zero = true.
Proof.
  intros Hx. destruct (positive_cases x Hx) as [E | [m [e E]]]; subst x; reflexivity.
Qed.

Lemma positive_times_pinf (x : double) :
  SFltb zero x = true -> SFmul prec emax x pinf = pinf.
Proof.
  intros Hx. destruct (positive_cases x Hx) as [E | [m [e E]]]; subst x; reflexivity.
Qed.

(** X11.  At full mobile saturation the permeabilities are exact in double
    arithmetic, whatever the parameters are (a NaN [alpha] included) and in
    both builds: [krw(params, 1.0)] is 1 and [krn(params, 1.0)] is 0. *)
Theorem permeabilities_at_full_saturation (b : build) (params : Params double) :
  @krw _ (ops libm_pow) b params one = Value one /\
  @krn _ (ops libm_pow) b params one = Value zero.
Proof.
  assert (Hok : @saturation_ok _ (ops libm_pow) one = true) by reflexivity.
  split; run_assert; rewrite Hok.
  - unfold krw_raw. cbn [Spow ops]. rewrite pow_base_one. destruct b; reflexivity.
  - unfold krn_raw. cbv zeta. cbn [Spow ops]. rewrite pow_base_one.
    destruct b; vm_compute; reflexivity.
Qed.

(** X12.  At zero capillary pressure the medium is fully saturated in
    double arithmetic: for every [pe > 0] and [alpha > 0], infinite ones
    included, [pC/pe] is [+0], [pow(+0, -alpha)] is plus infinity, and
    [Sw(params, 0.0)] returns 1 in both builds. *)
Theorem Sw_at_zero_pressure (b : build) (params : Params double) :
  SFltb zero (pe params) = true -> SFltb zero (alpha params) = true ->
  @Sw_raw _ (ops libm_pow) params zero = pinf /\
  @Sw _ (ops libm_pow) b params zero = Value one.
Proof.
  intros Hpe Ha.
  assert (Hraw : @Sw_raw _ (ops libm_pow) params zero = pinf).
  { unfold Sw_raw. cbn [Spow Sdiv Sopp ops].
    rewrite (zero_over_positive _ Hpe).
    apply pow_zero_negative, opp_positive_is_negative, Ha. }
  split; [exact Hraw | ].
  run_assert.
  assert (Hok : @pressure_ok _ (ops libm_pow) zero = true) by reflexivity.
  rewrite Hok. unfold Sw_clamped. cbv zeta. rewrite Hraw.
  destruct b; reflexivity.
Qed.

(** X13.  At zero saturation the capillary pressure is plus infinity in
    double arithmetic: for every [pe > 0] and every [alpha] whose exponent
    [-1.0/alpha] is negative, [pC(params, 0.0)] returns plus infinity in
    both builds; no assertion fails and nothing is thrown. *)
Theorem pC_at_zero_saturation (b : build) (params : Params double) :
  SFltb zero (pe params) = true ->
  SFltb (SFdiv prec emax (SFopp one) (alpha params)) zero = true ->
  @pC _ (ops libm_pow) b params zero = Value pinf.
Proof.
  intros Hpe Hexp.
  run_assert.
  assert (Hok : @saturation_ok _ (ops libm_pow) zero = true) by reflexivity.
  rewrite Hok.
  assert (Hraw : @pC_raw _ (ops libm_pow) params zero = pinf).
  { unfold pC_raw. cbn [Spow Sdiv Sopp Smul fromZ ops].
    change (of_Z 1) with one.
    rewrite (pow_zero_negative _ Hexp).
    apply positive_times_pinf, Hpe. }
  rewrite Hraw. destruct b; reflexivity.
Qed.

End DoubleEdges.

Lemma Sw_at_zero_pressure_witness :
  (SFltb DoubleScalar.zero Examples.d_1000 = true /\ SFltb DoubleScalar.zero Examples.d_2 = true) /\
  @BrooksCorey.Sw _ (DoubleScalar.ops Examples.unused_libm_pow) DebugBuild
     (BrooksCorey.mkParams Examples.d_1000 Examples.d_2) DoubleScalar.zero = Value DoubleScalar.one.
Proof.
  split; [split; reflexivity | ].
  apply (Sw_at_zero_pressure Examples.unused_libm_pow DebugBuild (BrooksCorey.mkParams Examples.d_1000 Examples.d_2));
    reflexivity.
Defined.

Lemma pC_at_zero_saturation_witness :
  (SFltb DoubleScalar.zero Examples.d_1000 = true /\
   SFltb (SFdiv 53 1024 (SFopp DoubleScalar.one) Examples.d_2) DoubleScalar.zero = true) /\
  @BrooksCorey.pC _ (DoubleScalar.ops Examples.unused_libm_pow) DebugBuild
     (BrooksCorey.mkParams Examples.d_1000 Examples.d_2) DoubleScalar.zero = Value DoubleScalar.pinf.
Proof.
  split; [split; reflexivity | ].
  apply (pC_at_zero_saturation Examples.unused_libm_pow DebugBuild (BrooksCorey.mkParams Examples.d_1000 Examples.d_2));
    reflexivity.
Defined.

(* ================================================================== *)
(** * The pair dispatchers and the partial pressures *)
(* ================================================================== *)

Section PairDispatchers.

Import Simple_H2O_N2_System.

Context {Scalar : Type} `{ScalarOps Scalar}.
Variable ext : Externals Scalar (FluidState Scalar).
Variable cext : ComponentExternals Scalar.

Local Open Scope scalar_scope.

Lemma valid_phase_cases (phaseIdx : Z) :
  phaseIdx = lPhaseIdx \/ phaseIdx = gPhaseIdx ->
  ((phaseIdx =? lPhaseIdx)%Z = true /\ (phaseIdx =? gPhaseIdx)%Z = false) \/
  ((phaseIdx =? lPhaseIdx)%Z = false /\ (phaseIdx =? gPhaseIdx)%Z = true).
Proof. intros [E | E]; subst phaseIdx; [left | right]; split; reflexivity. Qed.

(** X14.  The dispatchers over a phase and a component report the first
    index that is wrong.  [componentDensity] and [componentPressure] throw
    "Invalid phase index" for a phase index outside [{lPhaseIdx, gPhaseIdx}]
    whatever the component index is, and "Invalid component index" for a
    valid phase with a component index outside [{H2OIdx, N2Idx}];
    [degasPressure] throws "Invalid component index" for such a component
    index; and [componentDensity] returns a value exactly when both indices
    are valid. *)
Theorem pair_dispatchers_report_first_invalid_index
  (phaseIdx compIdx : Z) (temperature x : Scalar) :
  (phaseIdx <> lPhaseIdx -> phaseIdx <> gPhaseIdx ->
     componentDensity ext cext phaseIdx compIdx temperature x
       = Thrown (InvalidStateException ("Invalid phase index " ++ show_int phaseIdx)) /\
     componentPressure cext phaseIdx compIdx temperature x
       = Thrown (InvalidStateException ("Invalid phase index " ++ show_int phaseIdx))) /\
  (phaseIdx = lPhaseIdx \/ phaseIdx = gPhaseIdx ->
   compIdx <> H2OIdx -> compIdx <> N2Idx ->
     componentDensity ext cext phaseIdx compIdx temperature x
       = Thrown (InvalidStateException ("Invalid component index " ++ show_int compIdx)) /\
     componentPressure cext phaseIdx compIdx temperature x
       = Thrown (InvalidStateException ("Invalid component index " ++ show_int compIdx))) /\
  (compIdx <> H2OIdx -> compIdx <> N2Idx ->
     degasPressure cext compIdx temperature x
       = Thrown (InvalidStateException ("Invalid component index " ++ show_int compIdx))) /\
  ((exists v, componentDensity ext cext phaseIdx compIdx temperature x = Value v) <->
   (phaseIdx = lPhaseIdx \/ phaseIdx = gPhaseIdx) /\
   (compIdx = H2OIdx \/ compIdx = N2Idx)).
Proof.
  split; [ | split; [ | split]].
  - intros Hl Hg. apply Z.eqb_neq in Hl, Hg.
    unfold componentDensity, componentPressure. rewrite Hl, Hg. split; reflexivity.
  - intros Hp Hc1 Hc2.
    destruct (not_component compIdx Hc1 Hc2) as [E1 E2].
    unfold componentDensity, componentPressure.
    destruct (valid_phase_cases phaseIdx Hp) as [[El Eg] | [El Eg]];
      rewrite El, ?Eg, E1, E2; split; reflexivity.
  - intros Hc1 Hc2.
    destruct (not_component compIdx Hc1 Hc2) as [E1 E2].
    unfold degasPressure. rewrite E1, E2. reflexivity.
  - unfold componentDensity.
    destruct (Z.eqb_spec phaseIdx lPhaseIdx) as [El | Nl];
      [ | destruct (Z.eqb_spec phaseIdx gPhaseIdx) as [Eg | Ng]];
      destruct (Z.eqb_spec compIdx H2OIdx) as [E1 | N1];
      try destruct (Z.eqb_spec compIdx N2Idx) as [E2 | N2];
      split;
      try (intros [v Hv]; discriminate);
      try (intros _; eexists; reflexivity);
      try (intros _; split; [tauto | tauto]);
      try (intros [[Hp | Hp] [Hc | Hc]]; contradiction).
Qed.

(** X15.  [phaseInternalEnergy] has no invalid phase index either: for every
    index it returns a value and leaves the state; the liquid index gives
    [h - p * rho_liquid], every other index, valid or not, gives
    [h - R*T]. *)
Theorem phaseInternalEnergy_never_throws
  (phaseIdx : Z) (temperature pressure : Scalar) (fs : FluidState Scalar) :
  let h := enthalpy ext phaseIdx temperature pressure fs in
  phaseInternalEnergy ext phaseIdx temperature pressure fs
    = (Value (if (phaseIdx =? lPhaseIdx)%Z
              then h - pressure * H2O_liquidDensity ext temperature pressure
              else h - IdealGas_R ext * temperature), fs).
Proof.
  cbv zeta. unfold phaseInternalEnergy, bind, reads, phaseDensity, ret.
  destruct (phaseIdx =? lPhaseIdx)%Z; reflexivity.
Qed.

(** X16.  [phaseDensity] reads nothing of the fluid state but the two gas
    phase mole fractions: two states that agree on them get the same
    density (or the same exception) for every phase index, and for the
    liquid phase any two states do. *)
Theorem phaseDensity_reads_gas_mole_fractions
  (phaseIdx : Z) (temperature pressure : Scalar) (fs1 fs2 : FluidState Scalar) :
  (moleFrac fs1 gPhaseIdx H2OIdx = moleFrac fs2 gPhaseIdx H2OIdx ->
   moleFrac fs1 gPhaseIdx N2Idx = moleFrac fs2 gPhaseIdx N2Idx ->
   fst (phaseDensity ext phaseIdx temperature pressure fs1)
     = fst (phaseDensity ext phaseIdx temperature pressure fs2)) /\
  fst (phaseDensity ext lPhaseIdx temperature pressure fs1)
    = fst (phaseDensity ext lPhaseIdx temperature pressure fs2).
Proof.
  split; [ | reflexivity].
  intros E1 E2. unfold phaseDensity.
  destruct (phaseIdx =? lPhaseIdx)%Z; [reflexivity | ].
  destruct (phaseIdx =? gPhaseIdx)%Z; [ | reflexivity].
  cbn. rewrite E1, E2. reflexivity.
Qed.

(** X17.  [diffCoeff] does not care about the order of the two components:
    swapping them gives the same value or the same exception, message
    included. *)
Theorem diffCoeff_symmetric
  (phaseIdx compIIdx compJIdx : Z) (temperature pressure : Scalar)
  (fs : FluidState Scalar) :
  diffCoeff cext phaseIdx compIIdx compJIdx temperature pressure fs
    = diffCoeff cext phaseIdx compJIdx compIIdx temperature pressure fs.
Proof.
  unfold diffCoeff. cbv zeta.
  destruct (Z.gtb_spec compIIdx compJIdx) as [Hgt | Hle];
    destruct (Z.gtb_spec compJIdx compIIdx) as [Hgt' | Hle'];
    try lia; try reflexivity.
  assert (E : compIIdx = compJIdx) by lia. subst compJIdx. reflexivity.
Qed.

(** The two indices after they are put in order. *)
Lemma diffCoeff_ordered (compIIdx compJIdx : Z) :
  (if (compIIdx >? compJIdx)%Z then compJIdx else compIIdx) = Z.min compIIdx compJIdx /\
  (if (compIIdx >? compJIdx)%Z then compIIdx else compJIdx) = Z.max compIIdx compJIdx.
Proof. destruct (Z.gtb_spec compIIdx compJIdx); split; lia. Qed.

(** X18.  [diffCoeff] knows one pair only.  For the liquid and the gas
    phase it returns the binary coefficient of H2O and N2 when the two
    components are H2O and N2 in either order; for every other pair, a
    component with itself included, it throws: in the liquid phase the
    message about trace substances, in the gas phase and for every other
    phase index the message that names the ordered pair and the phase.  The
    fluid state is never changed. *)
Theorem diffCoeff_defined_for_one_pair
  (phaseIdx compIIdx compJIdx : Z) (temperature pressure : Scalar)
  (fs : FluidState Scalar) :
  let the_pair := (compIIdx = H2OIdx /\ compJIdx = N2Idx) \/
                  (compIIdx = N2Idx /\ compJIdx = H2OIdx) in
  let pair_error :=
    InvalidStateException
      (undefined_pair_message (Z.min compIIdx compJIdx) (Z.max compIIdx compJIdx) phaseIdx) in
  (the_pair ->
     diffCoeff cext lPhaseIdx compIIdx compJIdx temperature pressure fs
       = (Value (H2O_N2_liquidDiffCoeff cext temperature pressure), fs) /\
     diffCoeff cext gPhaseIdx compIIdx compJIdx temperature pressure fs
       = (Value (H2O_N2_gasDiffCoeff cext temperature pressure), fs)) /\
  (~ the_pair ->
     diffCoeff cext lPhaseIdx compIIdx compJIdx temperature pressure fs
       = (Thrown (InvalidStateException trace_substances_message), fs)) /\
  (~ the_pair -> phaseIdx <> lPhaseIdx ->
     diffCoeff cext phaseIdx compIIdx compJIdx temperature pressure fs
       = (Thrown pair_error, fs)) /\
  (phaseIdx <> lPhaseIdx -> phaseIdx <> gPhaseIdx ->
     diffCoeff cext phaseIdx compIIdx compJIdx temperature pressure fs
       = (Thrown pair_error, fs)).
Proof.
  cbv zeta.
  destruct (diffCoeff_ordered compIIdx compJIdx) as [Emin Emax].
  unfold diffCoeff. cbv zeta. rewrite Emin, Emax.
  unfold H2OIdx, N2Idx, lPhaseIdx, gPhaseIdx.
  split; [ | split; [ | split]].
  - intros [[Ei Ej] | [Ei Ej]]; subst compIIdx compJIdx; split; reflexivity.
  - intros Hn. cbn [Z.eqb].
    destruct (Z.eqb_spec (Z.min compIIdx compJIdx) 0) as [E0 | N0]; [ | reflexivity].
    destruct (Z.eqb_spec (Z.max compIIdx compJIdx) 1) as [E1 | N1]; [ | reflexivity].
    exfalso. apply Hn. lia.
  - intros Hn Hl. apply Z.eqb_neq in Hl. rewrite Hl.
    destruct (phaseIdx =? 1)%Z; [ | reflexivity].
    destruct (Z.eqb_spec (Z.min compIIdx compJIdx) 0) as [E0 | N0]; [ | reflexivity].
    destruct (Z.eqb_spec (Z.max compIIdx compJIdx) 1) as [E1 | N1]; [ | reflexivity].
    exfalso. apply Hn. lia.
  - intros Hl Hg. apply Z.eqb_neq in Hl, Hg. rewrite Hl, Hg. reflexivity.
Qed.

(** X20.  [computePartialPressures] looks at the mole fractions only: a
    second call with the same gas pressure changes no partial pressure, and
    the temperature argument has no influence on the result. *)
Theorem computePartialPressures_idempotent
  (temperature temperature' pg : Scalar) (fs : FluidState Scalar) (i : Z) :
  let once := snd (computePartialPressures temperature pg fs) in
  let twice := snd (computePartialPressures temperature' pg once) in
  partialPressure twice i = partialPressure once i /\
  moleFrac twice = moleFrac fs /\
  massFrac twice = massFrac fs.
Proof.
  cbv zeta. repeat split. cbn.
  destruct (i =? N2Idx)%Z; [reflexivity | ].
  destruct (i =? H2OIdx)%Z; reflexivity.
Qed.

End PairDispatchers.

Section PairDispatcherExamples.

Import Simple_H2O_N2_System.
Local Open Scope R_scope.

Lemma pair_dispatchers_report_first_invalid_index_witness :
  ((5 <> lPhaseIdx /\ 5 <> gPhaseIdx)%Z /\
   componentDensity Examples.r_externals Examples.r_component_externals 5 7 300 100000
     = Thrown (InvalidStateException "Invalid phase index 5")) /\
  (((gPhaseIdx = lPhaseIdx \/ gPhaseIdx = gPhaseIdx) /\ 7 <> H2OIdx /\ 7 <> N2Idx)%Z /\
   componentPressure Examples.r_component_externals gPhaseIdx 7 300 1
     = Thrown (InvalidStateException "Invalid component index 7")) /\
  degasPressure Examples.r_component_externals 7 300 100000
    = Thrown (InvalidStateException "Invalid component index 7").
Proof.
  assert (Hl : (5 <> lPhaseIdx)%Z) by discriminate.
  assert (Hg : (5 <> gPhaseIdx)%Z) by discriminate.
  assert (Hp : (gPhaseIdx = lPhaseIdx \/ gPhaseIdx = gPhaseIdx)%Z) by (right; reflexivity).
  assert (Hc1 : (7 <> H2OIdx)%Z) by discriminate.
  assert (Hc2 : (7 <> N2Idx)%Z) by discriminate.
  pose proof (pair_dispatchers_report_first_invalid_index
                Examples.r_externals Examples.r_component_externals) as T.
  split; [split; [split; assumption | ] | split; [split; [repeat split; assumption | ] | ]].
  - exact (proj1 (proj1 (T 5%Z 7%Z 300 100000) Hl Hg)).
  - exact (proj2 (proj1 (proj2 (T gPhaseIdx 7%Z 300 1)) Hp Hc1 Hc2)).
  - exact (proj1 (proj2 (proj2 (T 0%Z 7%Z 300 100000))) Hc1 Hc2).
Defined.

(** The state that [computePartialPressures] leaves has the mole fractions
    it found, so the gas density is the same before and after the call. *)
Lemma phaseDensity_reads_gas_mole_fractions_witness :
  let before := Examples.r_fluidState in
  let after := snd (computePartialPressures 300 100000 before) in
  (moleFrac before gPhaseIdx H2OIdx = moleFrac after gPhaseIdx H2OIdx /\
   moleFrac before gPhaseIdx N2Idx = moleFrac after gPhaseIdx N2Idx) /\
  fst (phaseDensity Examples.r_externals gPhaseIdx 300 100000 before)
    = fst (phaseDensity Examples.r_externals gPhaseIdx 300 100000 after).
Proof.
  cbv zeta.
  split; [split; reflexivity | ].
  exact (proj1 (phaseDensity_reads_gas_mole_fractions Examples.r_externals gPhaseIdx
                  300 100000 Examples.r_fluidState
                  (snd (computePartialPressures 300 100000 Examples.r_fluidState)))
           eq_refl eq_refl).
Defined.

Lemma diffCoeff_defined_for_one_pair_witness :
  (((N2Idx = H2OIdx /\ H2OIdx = N2Idx) \/ (N2Idx = N2Idx /\ H2OIdx = H2OIdx))%Z /\
   diffCoeff Examples.r_component_externals lPhaseIdx N2Idx H2OIdx 300 100000
     Examples.r_fluidState
     = (Value 0.000000002, Examples.r_fluidState)) /\
  (~ ((N2Idx = H2OIdx /\ N2Idx = N2Idx) \/ (N2Idx = N2Idx /\ N2Idx = H2OIdx))%Z /\
   diffCoeff Examples.r_component_externals lPhaseIdx N2Idx N2Idx 300 100000
     Examples.r_fluidState
     = (Thrown (InvalidStateException trace_substances_message), Examples.r_fluidState)) /\
  ((2 <> lPhaseIdx /\ 2 <> gPhaseIdx)%Z /\
   diffCoeff Examples.r_component_externals 2 N2Idx H2OIdx 300 100000
     Examples.r_fluidState
     = (Thrown (InvalidStateException (undefined_pair_message 0 1 2)),
        Examples.r_fluidState)).
Proof.
  assert (Hpair : ((N2Idx = H2OIdx /\ H2OIdx = N2Idx) \/
                   (N2Idx = N2Idx /\ H2OIdx = H2OIdx))%Z)
    by (right; split; reflexivity).
  assert (Hself : ~ ((N2Idx = H2OIdx /\ N2Idx = N2Idx) \/
                     (N2Idx = N2Idx /\ N2Idx = H2OIdx))%Z)
    by (intros [[E _] | [_ E]]; discriminate E).
  assert (Hl : (2 <> lPhaseIdx)%Z) by discriminate.
  assert (Hg : (2 <> gPhaseIdx)%Z) by discriminate.
  pose proof (diffCoeff_defined_for_one_pair Examples.r_component_externals) as T.
  split; [split; [exact Hpair | ] | split; [split; [exact Hself | ] | split; [split; assumption | ]]].
  - exact (proj1 (proj1 (T 0%Z N2Idx H2OIdx 300 100000 Examples.r_fluidState) Hpair)).
  - exact (proj1 (proj2 (T 0%Z N2Idx N2Idx 300 100000 Examples.r_fluidState)) Hself).
  - exact (proj2 (proj2 (proj2 (T 2%Z N2Idx H2OIdx 300 100000 Examples.r_fluidState)))
             Hl Hg).
Defined.

(** X19.  Dalton's law: when the two gas-phase mole fractions add up to 1,
    the partial pressures that [computePartialPressures] stores add up to
    the gas pressure it was given. *)
Theorem partial_pressures_sum_to_gas_pressure
  (temperature pg : R) (fs : FluidState R) :
  moleFrac fs gPhaseIdx H2OIdx + moleFrac fs gPhaseIdx N2Idx = 1 ->
  let after := snd (computePartialPressures temperature pg fs) in
  partialPressure after H2OIdx + partialPressure after N2Idx = pg.
Proof.
  intros Hsum. cbv zeta.
  destruct (computePartialPressures_effect temperature pg fs)
    as [_ [_ [_ [EH2O [EN2 _]]]]].
  rewrite EH2O, EN2. cbn [Smul RealScalar.ops].
  rewrite <- Rmult_plus_distr_l, Hsum. ring.
Qed.

Lemma partial_pressures_sum_to_gas_pressure_witness :
  moleFrac Examples.r_fluidState gPhaseIdx H2OIdx
    + moleFrac Examples.r_fluidState gPhaseIdx N2Idx = 1 /\
  partialPressure (snd (computePartialPressures 300 100000 Examples.r_fluidState)) H2OIdx
    + partialPressure (snd (computePartialPressures 300 100000 Examples.r_fluidState)) N2Idx
    = 100000.
Proof.
  assert (Hsum : moleFrac Examples.r_fluidState gPhaseIdx H2OIdx
                 + moleFrac Examples.r_fluidState gPhaseIdx N2Idx = 1)
    by (cbn; lra).
  split; [exact Hsum | ].
  exact (partial_pressures_sum_to_gas_pressure 300 100000 Examples.r_fluidState Hsum).
Defined.

End PairDispatcherExamples.

(* ================================================================== *)
(** * The round trip, in both arithmetics *)
(* ================================================================== *)

Section DoubleExactness.

Import DoubleScalar.

(** A finite double divided by itself is exactly one. *)
Lemma SFdiv_self (s : bool) (m : positive) (e : Z) :
  SFdiv prec emax (S754_finite s m e) (S754_finite s m e) = one.
Proof.
  unfold SFdiv, SFdiv_core_binary.
  replace (Zdigits2 (Z.pos m) + e - (Zdigits2 (Z.pos m) + e)) with 0 by lia.
  replace (e - e) with 0 by lia.
  change (Z.min (fexp prec emax 0) 0) with (-53).
  change (0 - -53) with 53.
  cbv beta iota zeta.
  assert (E : Z.div_eucl (Z.shiftl (Z.pos m) 53) (Z.pos m) = (9007199254740992, 0)).
  { rewrite Z.shiftl_mul_pow2 by lia.
    rewrite (surjective_pairing (Z.div_eucl (Z.pos m * 2 ^ 53) (Z.pos m))).
    change (fst (Z.div_eucl (Z.pos m * 2 ^ 53) (Z.pos m)))
      with ((Z.pos m * 2 ^ 53) / Z.pos m).
    change (snd (Z.div_eucl (Z.pos m * 2 ^ 53) (Z.pos m)))
      with ((Z.pos m * 2 ^ 53) mod Z.pos m).
    rewrite (Z.mul_comm (Z.pos m)).
    rewrite Z.div_mul, Z.mod_mul by lia. reflexivity. }
  rewrite E.
  assert (L : new_location (Z.pos m) 0 = loc_Exact)
    by (unfold new_location; destruct (Z.even (Z.pos m)); reflexivity).
  rewrite L. destruct s; reflexivity.
Qed.

Lemma mantissa_times_2_to_52 (m : positive) :
  (m * 4503599627370496)%positive = Pos.iter xO m 52.
Proof. rewrite Pos.mul_comm. reflexivity. Qed.

Lemma digits_of_shifted_mantissa (m : positive) :
  Z.pos (digits2_pos (Pos.iter xO m 52)) = Z.pos (digits2_pos m) + 52.
Proof. cbn. lia. Qed.

(** A finite double of the format times 1.0 is itself. *)
Lemma SFmul_one (s : bool) (m : positive) (e : Z) :
  bounded prec emax m e = true ->
  SFmul prec emax (S754_finite s m e) one = S754_finite s m e.
Proof.
  intros Hb. unfold bounded, canonical_mantissa in Hb.
  apply andb_prop in Hb. destruct Hb as [Hc He].
  apply Z.eqb_eq in Hc.
  change one with (S754_finite false 4503599627370496 (-52)).
  unfold SFmul. rewrite xorb_false_r, mantissa_times_2_to_52.
  unfold binary_round_aux, shr_fexp.
  unfold Zdigits2 at 1. rewrite digits_of_shifted_mantissa.
  replace (Z.pos (digits2_pos m) + 52 + (e + -52)) with (Z.pos (digits2_pos m) + e) by lia.
  rewrite Hc.
  replace (e - (e + -52)) with 52 by lia.
  cbn [shr shr_record_of_loc].
  assert (It : iter_pos shr_1 52
                 {| shr_m := Z.pos (Pos.iter xO m 52); shr_r := false; shr_s := false |}
               = {| shr_m := Z.pos m; shr_r := false; shr_s := false |})
    by reflexivity.
  rewrite It. cbn [shr_m loc_of_shr_record round_nearest_even Zdigits2].
  replace (e + -52 + 52) with e by lia.
  rewrite Hc. rewrite Z.sub_diag. cbn [shr shr_m].
  rewrite He. reflexivity.
Qed.

End DoubleExactness.

Section RoundTrip.

Import BrooksCorey.
Import DoubleScalar.

(** At full saturation the round trip is exact in double arithmetic: for
    every finite positive [pe] of the format, every [alpha] and every C
    library, [pC(params, 1.0)] is [pe] and [Sw(params, pe)] is 1. *)
Lemma roundtrip_at_full_saturation_double
  (libm_pow : double -> double -> double) (b : build)
  (m : positive) (e : Z) (a : double) :
  bounded prec emax m e = true ->
  @pC _ (ops libm_pow) b (mkParams (S754_finite false m e) a) one
    = Value (S754_finite false m e) /\
  @roundtrip _ (ops libm_pow) b (mkParams (S754_finite false m e) a) one = Value one.
Proof.
  intros Hb.
  assert (Hsat : @saturation_ok _ (ops libm_pow) one = true) by reflexivity.
  assert (HpC : @pC_raw _ (ops libm_pow) (mkParams (S754_finite false m e) a) one
                = S754_finite false m e).
  { unfold pC_raw. cbn [Spow Smul ops pe alpha].
    rewrite pow_base_one. apply SFmul_one, Hb. }
  assert (Hval : @pC _ (ops libm_pow) b (mkParams (S754_finite false m e) a) one
                 = Value (S754_finite false m e)).
  { run_assert. rewrite Hsat, HpC. destruct b; reflexivity. }
  split; [exact Hval | ].
  unfold roundtrip. rewrite Hval. cbn [obind]. run_assert.
  assert (Hok : @pressure_ok _ (ops libm_pow) (S754_finite false m e) = true)
    by reflexivity.
  rewrite Hok.
  assert (Hraw : @Sw_raw _ (ops libm_pow) (mkParams (S754_finite false m e) a)
                   (S754_finite false m e) = one).
  { unfold Sw_raw. cbn [Spow Sdiv Sopp ops pe alpha].
    rewrite SFdiv_self. apply pow_base_one. }
  unfold Sw_clamped. cbv zeta. rewrite Hraw.
  destruct b; reflexivity.
Qed.

(** Away from full saturation double arithmetic can lose the saturation
    without any overflow.  With [pe = 1000], [alpha = 2^57] and [s = 0.5]
    the exponent [-1.0/alpha] is [-2^-57]; the power [0.5^(-2^-57)] differs
    from 1 by less than [2^-57], so its nearest double is 1.0.  For a C
    library that returns this nearest double, [pC] returns 1000 and [Sw]
    returns 1, half a unit away from [s]. *)
Lemma roundtrip_rounds_away_in_double :
  (SFltb zero Examples.d_1000 = true /\ SFltb zero Examples.d_2_to_57 = true /\
   SFltb zero Examples.d_half = true /\ SFleb Examples.d_half one = true) /\
  (forall (libm_pow : double -> double -> double) (b : build),
     libm_pow Examples.d_half Examples.d_minus_2_to_minus_57 = one ->
     @pC _ (ops libm_pow) b (mkParams Examples.d_1000 Examples.d_2_to_57) Examples.d_half
       = Value Examples.d_1000 /\
     @roundtrip _ (ops libm_pow) b (mkParams Examples.d_1000 Examples.d_2_to_57)
        Examples.d_half = Value one) /\
  Examples.within_tolerance one Examples.d_half = false.
Proof.
  split; [repeat split; vm_compute; reflexivity | ].
  split; [ | vm_compute; reflexivity].
  intros libm_pow b Hlibm.
  assert (Hsat : @saturation_ok _ (ops libm_pow) Examples.d_half = true) by reflexivity.
  assert (Hexp : pow libm_pow Examples.d_half
                   (SFdiv prec emax (SFopp (of_Z 1)) Examples.d_2_to_57)
                 = libm_pow Examples.d_half Examples.d_minus_2_to_minus_57)
    by (vm_compute; reflexivity).
  assert (HpC : @pC_raw _ (ops libm_pow) (mkParams Examples.d_1000 Examples.d_2_to_57)
                  Examples.d_half = Examples.d_1000).
  { unfold pC_raw. cbn [Spow Smul Sdiv Sopp fromZ ops pe alpha].
    rewrite Hexp, Hlibm. vm_compute. reflexivity. }
  assert (Hval : @pC _ (ops libm_pow) b (mkParams Examples.d_1000 Examples.d_2_to_57)
                   Examples.d_half = Value Examples.d_1000).
  { run_assert. rewrite Hsat, HpC. destruct b; reflexivity. }
  split; [exact Hval | ].
  unfold roundtrip. rewrite Hval. cbn [obind]. run_assert.
  assert (Hok : @pressure_ok _ (ops libm_pow) Examples.d_1000 = true) by reflexivity.
  rewrite Hok.
  assert (Hraw : @Sw_raw _ (ops libm_pow) (mkParams Examples.d_1000 Examples.d_2_to_57)
                   Examples.d_1000 = one).
  { unfold Sw_raw. cbn [Spow Sdiv Sopp ops pe alpha].
    replace (SFdiv prec emax Examples.d_1000 Examples.d_1000) with one
      by (vm_compute; reflexivity).
    apply pow_base_one. }
  unfold Sw_clamped. cbv zeta. rewrite Hraw.
  destruct b; reflexivity.
Qed.

(** C1 (what holds of the round trip).  In exact real arithmetic the two
    curves are inverse to each other: for every build, every parameter set
    with [pe > 0] and [alpha > 0] and every saturation [0 < s <= 1],
    [Sw(params, pC(params, s))] returns [s] itself.  In double arithmetic
    the same holds at full saturation: for every build, every C library,
    every finite [pe > 0] of the format and every [alpha],
    [Sw(params, pC(params, 1.0))] returns exactly 1.0. *)
Theorem roundtrip_inverse :
  (forall (b : build) (params : Params R) (s : R),
     (0 < pe params)%R -> (0 < alpha params)%R -> (0 < s)%R -> (s <= 1)%R ->
     roundtrip b params s = Value s) /\
  (forall (libm_pow : double -> double -> double) (b : build)
          (m : positive) (e : Z) (a : double),
     bounded prec emax m e = true ->
     @roundtrip _ (ops libm_pow) b (mkParams (S754_finite false m e) a) one = Value one).
Proof.
  split.
  - intros b params s. apply roundtrip_exact.
  - intros libm_pow b m e a Hb.
    apply (roundtrip_at_full_saturation_double libm_pow b m e a Hb).
Qed.

Lemma roundtrip_inverse_witness :
  ((0 < 1000 /\ 0 < 2 /\ 0 < 1 / 2 /\ 1 / 2 <= 1)%R /\
   roundtrip DebugBuild (mkParams 1000%R 2%R) (1 / 2)%R = Value (1 / 2)%R) /\
  (bounded prec emax 8796093022208000 (-43) = true /\
   @roundtrip _ (ops Examples.unused_libm_pow) DebugBuild
      (mkParams (S754_finite false 8796093022208000 (-43)) Examples.d_2) one = Value one).
Proof.
  split.
  - split; [lra | ]. apply (proj1 roundtrip_inverse); cbn; lra.
  - split; [reflexivity | ].
    apply (proj2 roundtrip_inverse Examples.unused_libm_pow DebugBuild). reflexivity.
Defined.

End RoundTrip.

(* ================================================================== *)
(** * Which calls touch the fluid state, and which phase dispatchers throw *)
(* ================================================================== *)

Section StateAndThrows.

Import Simple_H2O_N2_System.

Context {Scalar : Type} `{ScalarOps Scalar}.
Variable ext : Externals Scalar (FluidState Scalar).
Variable cext : ComponentExternals Scalar.
Variable hext : EnthalpyExternals Scalar.

Local Open Scope scalar_scope.

Lemma keeps_get_massFrac (phaseIdx compIdx : Z) :
  keeps_state (Scalar := Scalar) (get_massFrac phaseIdx compIdx).
Proof. intros fs. reflexivity. Qed.

Lemma keeps_get_partialPressure (compIdx : Z) :
  keeps_state (Scalar := Scalar) (get_partialPressure compIdx).
Proof. intros fs. reflexivity. Qed.

(** A call that keeps the state returns the same outcome when it is made
    again. *)
Lemma keeps_state_repeatable {A : Type} (m : call Scalar A) :
  keeps_state m -> repeatable m.
Proof. intros Hm fs. rewrite (Hm fs). reflexivity. Qed.

Lemma diffCoeff_keeps_state
  (phaseIdx compIIdx compJIdx : Z) (temperature pressure : Scalar) :
  keeps_state (diffCoeff cext phaseIdx compIIdx compJIdx temperature pressure).
Proof.
  unfold diffCoeff. cbv zeta.
  repeat match goal with
         | |- context [if ?c then _ else _] => destruct c
         end;
    first [apply keeps_ret | apply keeps_throw].
Qed.

(** For a phase index other than [lPhaseIdx], [phaseEnthalpy] returns the
    sum of the two gas enthalpies weighted by the mass fractions and leaves
    the state; the pair [indeterminate] plays no part. *)
Lemma phaseEnthalpy_gas
  (indeterminate : Scalar * Scalar) (phaseIdx : Z)
  (temperature pressure : Scalar) (fs : FluidState Scalar) :
  phaseIdx <> lPhaseIdx ->
  phaseEnthalpy hext indeterminate phaseIdx temperature pressure fs
    = (Value (fromZ 0
              + H2O_gasEnthalpy hext temperature (partialPressure fs H2OIdx)
                * massFrac fs gPhaseIdx H2OIdx
              + N2_gasEnthalpy hext temperature (partialPressure fs N2Idx)
                * massFrac fs gPhaseIdx N2Idx), fs).
Proof.
  intros Hp. apply Z.eqb_neq in Hp.
  unfold phaseEnthalpy. rewrite Hp. reflexivity.
Qed.

Lemma phaseEnthalpy_gas_keeps_state
  (indeterminate : Scalar * Scalar) (phaseIdx : Z) (temperature pressure : Scalar) :
  phaseIdx <> lPhaseIdx ->
  keeps_state (phaseEnthalpy hext indeterminate phaseIdx temperature pressure).
Proof.
  intros Hp fs. rewrite (phaseEnthalpy_gas _ _ _ _ _ Hp). reflexivity.
Qed.

(** For the liquid phase the result is the liquid enthalpy at the two
    values the shadowing locals happen to hold; the temperature and
    pressure handed to the call play no part. *)
Lemma phaseEnthalpy_liquid_ignores_arguments
  (indeterminate : Scalar * Scalar)
  (temperature pressure temperature' pressure' : Scalar) (fs : FluidState Scalar) :
  phaseEnthalpy hext indeterminate lPhaseIdx temperature pressure fs
    = (Value (H2O_liquidEnthalpy hext (fst indeterminate) (snd indeterminate)), fs) /\
  phaseEnthalpy hext indeterminate lPhaseIdx temperature pressure fs
    = phaseEnthalpy hext indeterminate lPhaseIdx temperature' pressure' fs.
Proof. split; reflexivity. Qed.

(** What each phase dispatcher does with a phase index outside
    [{lPhaseIdx, gPhaseIdx}]. *)
Lemma throwing_phase_dispatchers
  (phaseIdx compIIdx compJIdx : Z) (temperature x : Scalar) (fs : FluidState Scalar) :
  phaseIdx <> lPhaseIdx -> phaseIdx <> gPhaseIdx ->
  phaseDensity ext phaseIdx temperature x fs
    = (Thrown (InvalidStateException ("Invalid phase index " ++ show_int phaseIdx)), fs) /\
  componentDensity ext cext phaseIdx compIIdx temperature x
    = Thrown (InvalidStateException ("Invalid phase index " ++ show_int phaseIdx)) /\
  componentPressure cext phaseIdx compIIdx temperature x
    = Thrown (InvalidStateException ("Invalid phase index " ++ show_int phaseIdx)) /\
  diffCoeff cext phaseIdx compIIdx compJIdx temperature x fs
    = (Thrown (InvalidStateException
                 (undefined_pair_message (Z.min compIIdx compJIdx)
                    (Z.max compIIdx compJIdx) phaseIdx)), fs).
Proof.
  intros Hl Hg. apply Z.eqb_neq in Hl, Hg.
  destruct (diffCoeff_ordered compIIdx compJIdx) as [Emin Emax].
  unfold phaseDensity, componentDensity, componentPressure, diffCoeff.
  cbv zeta. rewrite Emin, Emax, Hl, Hg. repeat split.
Qed.

Lemma phaseInternalEnergy_gas
  (phaseIdx : Z) (temperature pressure : Scalar) (fs : FluidState Scalar) :
  phaseIdx <> lPhaseIdx ->
  phaseInternalEnergy ext phaseIdx temperature pressure fs
    = (Value (enthalpy ext phaseIdx temperature pressure fs
              - IdealGas_R ext * temperature), fs).
Proof.
  intros Hp. apply Z.eqb_neq in Hp.
  unfold phaseInternalEnergy, bind, reads. rewrite Hp. reflexivity.
Qed.

End StateAndThrows.

Section PurityAndDispatch.

Import Simple_H2O_N2_System.

(** C9 (with the last clause put right).  [phaseViscosity] never reports an
    invalid phase index: for every index other than [lPhaseIdx], inside or
    outside [{lPhaseIdx, gPhaseIdx}], it returns the viscosity of nitrogen
    gas at the given temperature and pressure and throws nothing.
    [phaseInternalEnergy] and [phaseEnthalpy] do the same with [h - R*T] and
    with the mass-fraction-weighted gas enthalpy.  The phase dispatchers
    that throw for an index outside [{lPhaseIdx, gPhaseIdx}] are
    [phaseDensity], [componentDensity], [componentPressure] and
    [diffCoeff]. *)
Theorem phaseViscosity_never_throws_unlike_density
  (Scalar : Type) (sops : ScalarOps Scalar)
  (ext : Externals Scalar (FluidState Scalar))
  (cext : ComponentExternals Scalar) (hext : EnthalpyExternals Scalar)
  (indeterminate : Scalar * Scalar)
  (phaseIdx compIIdx compJIdx : Z) (temperature pressure : Scalar)
  (fs : FluidState Scalar) :
  (phaseIdx <> lPhaseIdx ->
     phaseViscosity ext phaseIdx temperature pressure fs
       = (Value (N2_gasViscosity ext temperature pressure), fs) /\
     phaseInternalEnergy ext phaseIdx temperature pressure fs
       = (Value (enthalpy ext phaseIdx temperature pressure fs
                 - IdealGas_R ext * temperature)%S, fs) /\
     phaseEnthalpy hext indeterminate phaseIdx temperature pressure fs
       = (Value (fromZ 0
                 + H2O_gasEnthalpy hext temperature (partialPressure fs H2OIdx)
                   * massFrac fs gPhaseIdx H2OIdx
                 + N2_gasEnthalpy hext temperature (partialPressure fs N2Idx)
                   * massFrac fs gPhaseIdx N2Idx)%S, fs)) /\
  (phaseIdx <> lPhaseIdx -> phaseIdx <> gPhaseIdx ->
     phaseDensity ext phaseIdx temperature pressure fs
       = (Thrown (InvalidStateException ("Invalid phase index " ++ show_int phaseIdx)), fs) /\
     componentDensity ext cext phaseIdx compIIdx temperature pressure
       = Thrown (InvalidStateException ("Invalid phase index " ++ show_int phaseIdx)) /\
     componentPressure cext phaseIdx compIIdx temperature pressure
       = Thrown (InvalidStateException ("Invalid phase index " ++ show_int phaseIdx)) /\
     diffCoeff cext phaseIdx compIIdx compJIdx temperature pressure fs
       = (Thrown (InvalidStateException
                    (undefined_pair_message (Z.min compIIdx compJIdx)
                       (Z.max compIIdx compJIdx) phaseIdx)), fs)).
Proof.
  split.
  - intros Hp. split; [ | split].
    + apply phaseViscosity_defaults_to_gas, Hp.
    + apply phaseInternalEnergy_gas, Hp.
    + apply phaseEnthalpy_gas, Hp.
  - intros Hl Hg. apply throwing_phase_dispatchers; assumption.
Qed.

Lemma phaseViscosity_never_throws_unlike_density_witness :
  (7 <> lPhaseIdx /\ 7 <> gPhaseIdx) /\
  phaseViscosity Examples.r_externals 7 300%R 100000%R Examples.r_fluidState
    = (Value 0.0000175%R, Examples.r_fluidState) /\
  phaseDensity Examples.r_externals 7 300%R 100000%R Examples.r_fluidState
    = (Thrown (InvalidStateException "Invalid phase index 7"), Examples.r_fluidState).
Proof.
  assert (Hl : 7 <> lPhaseIdx) by discriminate.
  assert (Hg : 7 <> gPhaseIdx) by discriminate.
  pose proof (phaseViscosity_never_throws_unlike_density R RealScalar.ops
                Examples.r_externals Examples.r_component_externals
                Examples.r_enthalpy_externals (0%R, 0%R) 7 0 1 300%R 100000%R
                Examples.r_fluidState) as [Hv Ht].
  split; [split; assumption | split].
  - exact (proj1 (Hv Hl)).
  - exact (proj1 (Ht Hl Hg)).
Defined.

(** C9 fails in its last clause: [phaseViscosity] is not the only phase
    dispatcher without a throw.  At the phase index 7, outside
    [{lPhaseIdx, gPhaseIdx}], [phaseInternalEnergy] returns [h - R*T] and
    [phaseEnthalpy] returns the weighted gas enthalpy. *)
Lemma phaseInternalEnergy_does_not_throw_either :
  (7 <> lPhaseIdx /\ 7 <> gPhaseIdx) /\
  phaseInternalEnergy Examples.r_externals 7 300%R 100000%R Examples.r_fluidState
    = (Value (0 - 8.314472 * 300)%R, Examples.r_fluidState) /\
  phaseEnthalpy Examples.r_enthalpy_externals (0%R, 0%R) 7 300%R 100000%R
    Examples.r_fluidState
    = (Value (0 + 2500000 * 0.5 + 300000 * 0.5)%R, Examples.r_fluidState).
Proof.
  split; [split; discriminate | split; reflexivity].
Qed.

End PurityAndDispatch.

Section Purity.

Import Simple_H2O_N2_System.



End Purity.
